(** * Insurance fraud detection form (fraud_streamlit.py)

    A shallow embedding of the Streamlit script: the cached model loader
    [load_model], the form [create_input_features], the inference call
    [make_prediction] and the page script [main], followed by the
    properties of the prediction request/response contract.

    Modelling conventions.
    - Python floats that carry probabilities are exact rationals ([Q]);
      the literals [0.7] and [0.4] are the rationals 7/10 and 4/10.
    - Python integers are [Z]; [str] values are [string].
    - The dict returned by the form is an association list in insertion
      order; the one-row [pandas.DataFrame] built from it is a list of rows.
    - A script run is a computation that reads the browser's widget state
      and the artifact on disk, threads the process-wide resource cache and
      writes the page elements it renders, in order.
    - Only exceptions deriving from [Exception] are modelled as raised
      values; [st.stop()] is the separate outcome [Stopped]. *)

From Stdlib Require Import List String ZArith QArith Qabs Lia Lqa Bool.
Import ListNotations.

Open Scope string_scope.
Open Scope Z_scope.

(** ** Python values and exceptions *)

Inductive Value : Type :=
| VStr (s : string)
| VInt (z : Z).

Record exn : Type := mkExn {
  exn_class : string;   (* name of the exception class *)
  exn_str   : string    (* str(e) *)
}.

Definition FileNotFoundError : string := "FileNotFoundError".
Definition IndexError : string := "IndexError".
Definition AttributeError : string := "AttributeError".
Definition TypeError : string := "TypeError".
Definition StreamlitAPIException : string := "StreamlitAPIException".

(** [isinstance(e, cls)] for a class without modelled subclasses. *)
Definition isinstance (e : exn) (cls : string) : bool :=
  String.eqb (exn_class e) cls.

(** Result of a call that either returns or raises. *)
Inductive Except (A : Type) : Type :=
| Ret (a : A)
| Exc (e : exn).
Arguments Ret {A} a.
Arguments Exc {A} e.

Definition index_error : exn := mkExn IndexError "index out of range".

(** [xs[i]] on a sequence. *)
Definition getitem {A : Type} (xs : list A) (i : nat) : Except A :=
  match nth_error xs i with
  | Some x => Ret x
  | None => Exc index_error
  end.

(** ** The model artifact *)

Definition Features : Type := list (string * Value).
Definition DataFrame : Type := list Features.

(** Modelled from the spec: the serialized classifier is not part of the
    sources; the script only calls [predict] and [predict_proba] on it.
    Following the spec's external-interface section it is an object with
    [predict(frame) -> labels] and [predict_proba(frame) -> rows of
    probabilities], either of which may raise; [trained_domain] records, per
    categorical column, the values the model was trained on. *)
Record Model : Type := mkModel {
  predict        : DataFrame -> Except (list Z);
  predict_proba  : DataFrame -> Except (list (list Q));
  trained_domain : string -> list string
}.

(** ** Risk interpretation (main, lines 287-296) *)

Definition HIGH : string := "🔴 HIGH RISK".
Definition MEDIUM : string := "🟡 MEDIUM RISK".
Definition LOW : string := "🟢 LOW RISK".

(** The pair [(risk_level, recommendation)] assigned by the if/elif/else. *)
Definition risk_interpretation (fraud_prob : Q) : string * string :=
  if Qle_bool 0.7 fraud_prob then
    (HIGH, "Immediate investigation recommended")
  else if Qle_bool 0.4 fraud_prob then
    (MEDIUM, "Additional review suggested")
  else
    (LOW, "Standard processing appropriate").

Definition risk_level (fraud_prob : Q) : string :=
  fst (risk_interpretation fraud_prob).

(** ** Script runs *)

(** Bodies of the static [st.markdown] blocks; their HTML and prose are
    presentation and are kept abstract. *)
Inductive MarkdownBody : Type :=
| MainHeader
| ModelInformationHeading
| ModelInformationBox
| InstructionsHeading
| InstructionsList
| HorizontalRule                 (* "---" *)
| FraudDetectedBox
| LowFraudRiskBox
| ConfidenceScoresHeading
| RiskAssessmentHeading
| RiskLevelText (risk_level recommendation : string)
| AboutThisModel.

(** Elements a run puts on the page.  Layout containers ([st.columns],
    [st.sidebar], [st.spinner], [st.expander]) only position elements and
    are not recorded. *)
Inductive Element : Type :=
| Markdown (body : MarkdownBody)
| Subheader (text : string)
| Widget (label : string)
| ErrorBox (message : string)
| Metric (label : string) (value : Q)
| Progress (value : Q).

(** What the browser session answers to each widget call. *)
Record UI : Type := mkUI {
  selectbox    : string -> list string -> string;   (* label, options *)
  slider       : string -> Z -> Z -> Z -> Z -> Z;   (* label, min, max, value, step *)
  number_input : string -> Z -> Z -> Z -> Z;        (* label, min_value, max_value, value *)
  button       : string -> bool                     (* label *)
}.

(** What [pickle.load] does with the bytes of a file.  The object that
    was pickled need not be a classifier; [None] stands for the pickled
    [None], every other object is seen through its [predict] and
    [predict_proba]. *)
Inductive Pickle : Type :=
| Garbled (e : exn)                  (* unpickling raises e *)
| Pickled (object : option Model).   (* unpickling returns the object *)

(** State of a path on disk as seen by [open(path, 'rb')]. *)
Inductive FileState : Type :=
| Absent                     (* no such file *)
| Unopenable (e : exn)       (* the file exists and open raises e *)
| Readable (content : Pickle).

Record Env : Type := mkEnv {
  ui : UI;
  fs : string -> FileState
}.

(** The single entry of [st.cache_resource] for the argument-less
    [load_model]: the cached return value and the elements the call
    rendered, which are replayed on a hit. *)
Definition Cache : Type := option (option Model * list Element).

Inductive Outcome (A : Type) : Type :=
| Returned (a : A)
| Raised (e : exn)           (* an uncaught Exception *)
| Stopped.                   (* st.stop() ended the run *)
Arguments Returned {A} a.
Arguments Raised {A} e.
Arguments Stopped {A}.

Record Run (A : Type) : Type := mkRun {
  outcome  : Outcome A;
  cache_of : Cache;
  rendered : list Element
}.
Arguments mkRun {A} _ _ _.
Arguments outcome {A} _.
Arguments cache_of {A} _.
Arguments rendered {A} _.

Definition App (A : Type) : Type := Env -> Cache -> Run A.

Definition ret {A : Type} (a : A) : App A :=
  fun _ c => mkRun (Returned a) c [].

Definition bind {A B : Type} (m : App A) (k : A -> App B) : App B :=
  fun env c =>
    let r := m env c in
    match outcome r with
    | Returned a =>
        let r' := k a env (cache_of r) in
        mkRun (outcome r') (cache_of r') (rendered r ++ rendered r')
    | Raised e => mkRun (Raised e) (cache_of r) (rendered r)
    | Stopped => mkRun Stopped (cache_of r) (rendered r)
    end.

Declare Scope app_scope.
Delimit Scope app_scope with app.
Notation "x <- m ;; k" := (bind m (fun x => k))
  (at level 61, m at next level, right associativity) : app_scope.
Notation "m ;; k" := (bind m (fun _ => k))
  (at level 61, right associativity) : app_scope.
Open Scope app_scope.

(** [raise e]. *)
Definition raise {A : Type} (e : exn) : App A :=
  fun _ c => mkRun (Raised e) c [].

(** A call that returns or raises, run inside a script. *)
Definition call {A : Type} (x : Except A) : App A :=
  match x with
  | Ret a => ret a
  | Exc e => raise e
  end.

(** [try: body  except Exception as e: handler e].  [st.stop()] is not an
    [Exception] and passes through. *)
Definition try_except {A : Type} (body : App A) (handler : exn -> App A) : App A :=
  fun env c =>
    let r := body env c in
    match outcome r with
    | Raised e =>
        let r' := handler e env (cache_of r) in
        mkRun (outcome r') (cache_of r') (rendered r ++ rendered r')
    | _ => r
    end.

Definition emit (e : Element) : App unit :=
  fun _ c => mkRun (Returned tt) c [e].

Definition st_markdown (body : MarkdownBody) : App unit := emit (Markdown body).
Definition st_subheader (text : string) : App unit := emit (Subheader text).
Definition st_error (message : string) : App unit := emit (ErrorBox message).
Definition st_metric (label : string) (value : Q) : App unit := emit (Metric label value).

(** [st.progress(value)] rejects a float outside [0.0, 1.0]. *)
Definition st_progress (value : Q) : App unit :=
  if Qle_bool 0 value && Qle_bool value 1 then emit (Progress value)
  else raise (mkExn StreamlitAPIException "Progress Value has invalid value [0.0, 1.0]").

Definition st_stop {A : Type} : App A :=
  fun _ c => mkRun Stopped c [].

Definition st_selectbox (label : string) (options : list string) : App string :=
  fun env c => mkRun (Returned (selectbox (ui env) label options)) c [Widget label].

Definition st_slider (label : string) (min_value max_value value step : Z) : App Z :=
  fun env c =>
    mkRun (Returned (slider (ui env) label min_value max_value value step)) c [Widget label].

Definition st_number_input (label : string) (min_value max_value value : Z) : App Z :=
  fun env c =>
    mkRun (Returned (number_input (ui env) label min_value max_value value)) c [Widget label].

Definition st_button (label : string) : App bool :=
  fun env c => mkRun (Returned (button (ui env) label)) c [Widget label].

(** [open(path, 'rb')]. *)
Definition open_rb (path : string) : App Pickle :=
  fun env c =>
    match fs env path with
    | Absent =>
        mkRun (Raised (mkExn FileNotFoundError
                         ("[Errno 2] No such file or directory: '" ++ path ++ "'"))) c []
    | Unopenable e => mkRun (Raised e) c []
    | Readable content => mkRun (Returned content) c []
    end.

Definition pickle_load (file : Pickle) : Except (option Model) :=
  match file with
  | Garbled e => Exc e
  | Pickled object => Ret object
  end.

(** The decorator [@st.cache_resource] on a function without arguments:
    the first call that returns stores its value together with the
    elements it rendered; later calls return the stored value and replay
    the elements without running the body. *)
Definition cache_resource (body : App (option Model)) : App (option Model) :=
  fun env c =>
    match c with
    | Some (value, elements) => mkRun (Returned value) c elements
    | None =>
        let r := body env None in
        match outcome r with
        | Returned value => mkRun (Returned value) (Some (value, rendered r)) (rendered r)
        | _ => r
        end
    end.

(** ** load_model (lines 53-65) *)

Definition model_path : string := "insurance_fraud_model.sav".

Definition not_found_message : string :=
  "Model file 'insurance_fraud_model.sav' not found. Please ensure the file is in the same directory as this app.".

Definition load_error_message (e : exn) : string :=
  "Error loading model: " ++ exn_str e.

(** The undecorated function body. *)
Definition load_model_body : App (option Model) :=
  try_except
    (file <- open_rb model_path ;;
     model <- call (pickle_load file) ;;
     ret model)
    (fun e =>
       if isinstance e FileNotFoundError then
         st_error not_found_message ;;
         ret None
       else
         st_error (load_error_message e) ;;
         ret None).

Definition load_model : App (option Model) := cache_resource load_model_body.

(** ** create_input_features (lines 67-197) *)

Module Options.
Definition Month : list string :=
  ["Dec"; "Jan"; "Oct"; "Jun"; "Feb"; "Nov"; "Apr"; "Mar"; "Aug"; "Jul"; "May"; "Sep"].
Definition DayOfWeek : list string :=
  ["Wednesday"; "Friday"; "Saturday"; "Monday"; "Tuesday"; "Sunday"; "Thursday"].
Definition MonthClaimed : list string :=
  ["Jan"; "Nov"; "Jul"; "Feb"; "Mar"; "Dec"; "Apr"; "Aug"; "May"; "Jun"; "Sep"; "Oct"; "0"].
Definition DayOfWeekClaimed : list string :=
  ["Tuesday"; "Monday"; "Thursday"; "Friday"; "Wednesday"; "Saturday"; "Sunday"; "0"].
Definition Make : list string :=
  ["Honda"; "Toyota"; "Ford"; "Mazda"; "Chevrolet"; "Pontiac"; "Accura"; "Dodge";
   "Mercury"; "Jaguar"; "Nisson"; "VW"; "Saab"; "Saturn"; "Porche"; "BMW";
   "Mercedes"; "Ferrari"; "Lexus"].
Definition VehicleCategory : list string := ["Sport"; "Utility"; "Sedan"].
Definition VehiclePrice : list string :=
  ["more than 69000"; "20000 to 29000"; "30000 to 39000"; "less than 20000";
   "40000 to 59000"; "60000 to 69000"].
Definition AgeOfVehicle : list string :=
  ["3 years"; "6 years"; "7 years"; "more than 7"; "5 years"; "new"; "4 years"; "2 years"].
Definition PolicyType : list string :=
  ["Sport - Liability"; "Sport - Collision"; "Sedan - Liability"; "Utility - All Perils";
   "Sedan - All Perils"; "Sedan - Collision"; "Utility - Collision"; "Utility - Liability";
   "Sport - All Perils"].
Definition BasePolicy : list string := ["Liability"; "Collision"; "All Perils"].
Definition Sex : list string := ["Female"; "Male"].
Definition MaritalStatus : list string := ["Single"; "Married"; "Widow"; "Divorced"].
Definition AgeOfPolicyHolder : list string :=
  ["26 to 30"; "31 to 35"; "41 to 50"; "51 to 65"; "21 to 25";
   "36 to 40"; "16 to 17"; "over 65"; "18 to 20"].
Definition Fault : list string := ["Policy Holder"; "Third Party"].
Definition AccidentArea : list string := ["Urban"; "Rural"].
Definition Days_Policy_Accident : list string :=
  ["more than 30"; "15 to 30"; "none"; "1 to 7"; "8 to 15"].
Definition Days_Policy_Claim : list string :=
  ["more than 30"; "15 to 30"; "8 to 15"; "none"].
Definition PastNumberOfClaims : list string := ["none"; "1"; "2 to 4"; "more than 4"].
Definition PoliceReportFiled : list string := ["No"; "Yes"].
Definition WitnessPresent : list string := ["No"; "Yes"].
Definition AgentType : list string := ["External"; "Internal"].
Definition NumberOfSuppliments : list string :=
  ["none"; "more than 5"; "3 to 5"; "1 to 2"].
Definition AddressChange_Claim : list string :=
  ["1 year"; "no change"; "4 to 8 years"; "2 to 3 years"; "under 6 months"].
Definition NumberOfCars : list string :=
  ["3 to 4"; "1 vehicle"; "2 vehicles"; "5 to 8"; "more than 8"].
End Options.

Definition create_input_features : App Features :=
  st_markdown MainHeader ;;
  (* col1 *)
  st_subheader "📅 Temporal Information" ;;
  month <- st_selectbox "Month" Options.Month ;;
  day_of_week <- st_selectbox "Day of Week" Options.DayOfWeek ;;
  week_of_month <- st_slider "Week of Month" 1 5 3 1 ;;
  week_of_month_claimed <- st_slider "Week of Month (Claimed)" 0 5 3 1 ;;
  month_claimed <- st_selectbox "Month Claimed" Options.MonthClaimed ;;
  day_of_week_claimed <- st_selectbox "Day of Week (Claimed)" Options.DayOfWeekClaimed ;;
  (* col2 *)
  st_subheader "🚗 Vehicle & Policy Information" ;;
  make <- st_selectbox "Vehicle Make" Options.Make ;;
  vehicle_category <- st_selectbox "Vehicle Category" Options.VehicleCategory ;;
  vehicle_price <- st_selectbox "Vehicle Price Range" Options.VehiclePrice ;;
  age_of_vehicle <- st_selectbox "Age of Vehicle" Options.AgeOfVehicle ;;
  policy_type <- st_selectbox "Policy Type" Options.PolicyType ;;
  base_policy <- st_selectbox "Base Policy" Options.BasePolicy ;;
  deductible <- st_slider "Deductible" 300 700 400 100 ;;
  (* col3 *)
  st_subheader "👤 Personal Information" ;;
  sex <- st_selectbox "Sex" Options.Sex ;;
  marital_status <- st_selectbox "Marital Status" Options.MaritalStatus ;;
  age <- st_slider "Age" 16 80 40 1 ;;
  age_of_policy_holder <- st_selectbox "Age Group of Policy Holder" Options.AgeOfPolicyHolder ;;
  fault <- st_selectbox "At Fault" Options.Fault ;;
  accident_area <- st_selectbox "Accident Area" Options.AccidentArea ;;
  driver_rating <- st_slider "Driver Rating" 1 4 2 1 ;;
  st_subheader "📊 Additional Details" ;;
  policy_number <- st_number_input "Policy Number" 1 15420 7710 ;;
  rep_number <- st_slider "Rep Number" 1 16 8 1 ;;
  year <- st_slider "Year" 1994 1996 1995 1 ;;
  days_policy_accident <- st_selectbox "Days Policy to Accident" Options.Days_Policy_Accident ;;
  days_policy_claim <- st_selectbox "Days Policy to Claim" Options.Days_Policy_Claim ;;
  past_number_of_claims <- st_selectbox "Past Number of Claims" Options.PastNumberOfClaims ;;
  police_report_filed <- st_selectbox "Police Report Filed" Options.PoliceReportFiled ;;
  witness_present <- st_selectbox "Witness Present" Options.WitnessPresent ;;
  agent_type <- st_selectbox "Agent Type" Options.AgentType ;;
  number_of_suppliments <- st_selectbox "Number of Suppliments" Options.NumberOfSuppliments ;;
  address_change_claim <- st_selectbox "Address Change Claim" Options.AddressChange_Claim ;;
  number_of_cars <- st_selectbox "Number of Cars" Options.NumberOfCars ;;
  ret [ ("Month", VStr month);
        ("DayOfWeek", VStr day_of_week);
        ("Make", VStr make);
        ("AccidentArea", VStr accident_area);
        ("DayOfWeekClaimed", VStr day_of_week_claimed);
        ("MonthClaimed", VStr month_claimed);
        ("WeekOfMonth", VInt week_of_month);
        ("WeekOfMonthClaimed", VInt week_of_month_claimed);
        ("Sex", VStr sex);
        ("MaritalStatus", VStr marital_status);
        ("Age", VInt age);
        ("Fault", VStr fault);
        ("PolicyType", VStr policy_type);
        ("VehicleCategory", VStr vehicle_category);
        ("VehiclePrice", VStr vehicle_price);
        ("Days_Policy_Accident", VStr days_policy_accident);
        ("Days_Policy_Claim", VStr days_policy_claim);
        ("PastNumberOfClaims", VStr past_number_of_claims);
        ("AgeOfVehicle", VStr age_of_vehicle);
        ("AgeOfPolicyHolder", VStr age_of_policy_holder);
        ("PoliceReportFiled", VStr police_report_filed);
        ("WitnessPresent", VStr witness_present);
        ("AgentType", VStr agent_type);
        ("NumberOfSuppliments", VStr number_of_suppliments);
        ("AddressChange_Claim", VStr address_change_claim);
        ("NumberOfCars", VStr number_of_cars);
        ("BasePolicy", VStr base_policy);
        ("PolicyNumber", VInt policy_number);
        ("RepNumber", VInt rep_number);
        ("Deductible", VInt deductible);
        ("DriverRating", VInt driver_rating);
        ("Year", VInt year) ].

(** ** make_prediction (lines 199-212) *)

(** Attribute lookup [handle.predict] / [handle.predict_proba] followed by
    the call; [None] has neither attribute. *)
Definition call_predict (handle : option Model) (df : DataFrame) : Except (list Z) :=
  match handle with
  | Some model => predict model df
  | None => Exc (mkExn AttributeError "'NoneType' object has no attribute 'predict'")
  end.

Definition call_predict_proba (handle : option Model) (df : DataFrame)
  : Except (list (list Q)) :=
  match handle with
  | Some model => predict_proba model df
  | None => Exc (mkExn AttributeError "'NoneType' object has no attribute 'predict_proba'")
  end.

Definition prediction_error_message (e : exn) : string :=
  "Error making prediction: " ++ exn_str e.

Definition make_prediction (model : option Model) (features : Features)
  : App (option Z * option (list Q)) :=
  try_except
    (let df : DataFrame := [features] in
     labels <- call (call_predict model df) ;;
     prediction <- call (getitem labels 0) ;;
     probabilities <- call (call_predict_proba model df) ;;
     prediction_proba <- call (getitem probabilities 0) ;;
     ret (Some prediction, Some prediction_proba))
    (fun e =>
       st_error (prediction_error_message e) ;;
       ret (None, None)).

(** ** main (lines 214-325) *)

(** [prediction_proba[i]] in [main], where the value may be [None]. *)
Definition subscript (prediction_proba : option (list Q)) (i : nat) : Except Q :=
  match prediction_proba with
  | Some row => getitem row i
  | None => Exc (mkExn TypeError "'NoneType' object is not subscriptable")
  end.

(** The block under [if prediction is not None:]. *)
Definition render_result (prediction : Z) (prediction_proba : option (list Q)) : App unit :=
  (if prediction =? 1 then st_markdown FraudDetectedBox
   else st_markdown LowFraudRiskBox) ;;
  st_markdown ConfidenceScoresHeading ;;
  p0 <- call (subscript prediction_proba 0) ;;
  st_metric "No Fraud Probability" p0 ;;
  p1 <- call (subscript prediction_proba 1) ;;
  st_metric "Fraud Probability" p1 ;;
  st_markdown RiskAssessmentHeading ;;
  p1' <- call (subscript prediction_proba 1) ;;
  st_progress p1' ;;
  fraud_prob <- call (subscript prediction_proba 1) ;;
  let '(risk_level, recommendation) := risk_interpretation fraud_prob in
  st_markdown (RiskLevelText risk_level recommendation).

Definition predict_button : string := "🔍 Predict Fraud Risk".

Definition main : App unit :=
  model <- load_model ;;
  (match model with
   | None => st_stop
   | Some _ => ret tt
   end) ;;
  st_markdown ModelInformationHeading ;;
  st_markdown ModelInformationBox ;;
  st_markdown InstructionsHeading ;;
  st_markdown InstructionsList ;;
  features <- create_input_features ;;
  st_markdown HorizontalRule ;;
  clicked <- st_button predict_button ;;
  (if clicked then
     result <- make_prediction model features ;;
     let '(prediction, prediction_proba) := result in
     match prediction with
     | Some prediction => render_result prediction prediction_proba
     | None => ret tt
     end
   else ret tt) ;;
  st_markdown HorizontalRule ;;
  st_markdown AboutThisModel.

(** ** Vocabulary of the contract *)

(** The body of a run: what it returned, if it returned. *)
Definition features_of (env : Env) : Features :=
  match outcome (create_input_features env None) with
  | Returned features => features
  | _ => []
  end.

(** Domain of one column, read off the widget call that feeds it. *)
Inductive Domain : Type :=
| Categorical (options : list string)          (* st.selectbox *)
| Numeric (min_value max_value step : Z).      (* st.slider / st.number_input *)

(** Columns in the order of the returned dict. *)
Definition schema : list (string * Domain) :=
  [ ("Month", Categorical Options.Month);
    ("DayOfWeek", Categorical Options.DayOfWeek);
    ("Make", Categorical Options.Make);
    ("AccidentArea", Categorical Options.AccidentArea);
    ("DayOfWeekClaimed", Categorical Options.DayOfWeekClaimed);
    ("MonthClaimed", Categorical Options.MonthClaimed);
    ("WeekOfMonth", Numeric 1 5 1);
    ("WeekOfMonthClaimed", Numeric 0 5 1);
    ("Sex", Categorical Options.Sex);
    ("MaritalStatus", Categorical Options.MaritalStatus);
    ("Age", Numeric 16 80 1);
    ("Fault", Categorical Options.Fault);
    ("PolicyType", Categorical Options.PolicyType);
    ("VehicleCategory", Categorical Options.VehicleCategory);
    ("VehiclePrice", Categorical Options.VehiclePrice);
    ("Days_Policy_Accident", Categorical Options.Days_Policy_Accident);
    ("Days_Policy_Claim", Categorical Options.Days_Policy_Claim);
    ("PastNumberOfClaims", Categorical Options.PastNumberOfClaims);
    ("AgeOfVehicle", Categorical Options.AgeOfVehicle);
    ("AgeOfPolicyHolder", Categorical Options.AgeOfPolicyHolder);
    ("PoliceReportFiled", Categorical Options.PoliceReportFiled);
    ("WitnessPresent", Categorical Options.WitnessPresent);
    ("AgentType", Categorical Options.AgentType);
    ("NumberOfSuppliments", Categorical Options.NumberOfSuppliments);
    ("AddressChange_Claim", Categorical Options.AddressChange_Claim);
    ("NumberOfCars", Categorical Options.NumberOfCars);
    ("BasePolicy", Categorical Options.BasePolicy);
    ("PolicyNumber", Numeric 1 15420 1);
    ("RepNumber", Numeric 1 16 1);
    ("Deductible", Numeric 300 700 100);
    ("DriverRating", Numeric 1 4 1);
    ("Year", Numeric 1994 1996 1) ].

Definition mem (s : string) (l : list string) : bool := existsb (String.eqb s) l.

(** [z] is one of [lo], [lo + step], ... not above [hi]. *)
Definition on_grid (lo hi step z : Z) : bool :=
  (lo <=? z) && (z <=? hi) && ((z - lo) mod step =? 0).

Definition in_domain (d : Domain) (v : Value) : bool :=
  match d, v with
  | Categorical options, VStr s => mem s options
  | Numeric lo hi step, VInt z => on_grid lo hi step z
  | _, _ => false
  end.

Fixpoint conforms (sch : list (string * Domain)) (record : Features) : bool :=
  match sch, record with
  | [], [] => true
  | (name, d) :: sch', (name', v) :: record' =>
      String.eqb name name' && in_domain d v && conforms sch' record'
  | _, _ => false
  end.

(** A valid ClaimRecord: every column present, in order, within its domain. *)
Definition valid_record (record : Features) : Prop := conforms schema record = true.

(** [record[name]]. *)
Fixpoint get (name : string) (record : Features) : option Value :=
  match record with
  | [] => None
  | (name', v) :: record' => if String.eqb name name' then Some v else get name record'
  end.

Definition is_categorical (v : Value) : bool :=
  match v with VStr _ => true | VInt _ => false end.

Definition is_numeric (v : Value) : bool :=
  match v with VStr _ => false | VInt _ => true end.

Definition count_fields (kind : Value -> bool) (record : Features) : nat :=
  List.length (filter (fun field => kind (snd field)) record).

(** The enumeration the form offers for a column ([[]] for a numeric one). *)
Definition form_domain (column : string) : list string :=
  match find (fun entry => String.eqb (fst entry) column) schema with
  | Some (_, Categorical options) => options
  | _ => []
  end.

(** Some categorical value of the record lies outside [domain]. *)
Definition unseen_in (domain : string -> list string) (record : Features) : bool :=
  existsb (fun field =>
             match snd field with
             | VStr s => negb (mem s (domain (fst field)))
             | VInt _ => false
             end) record.

Definition unseen (m : Model) (record : Features) : bool :=
  unseen_in (trained_domain m) record.

(** The model was trained on every value the form offers. *)
Definition covers_form (m : Model) : Prop :=
  forall column value, In value (form_domain column) -> In value (trained_domain m column).

(** The widget contract of Streamlit for well-formed calls: a selectbox
    answers one of its options, a slider a value of its range on the step
    grid, a number input a value between its bounds. *)
Record ui_ok (u : UI) : Prop := mk_ui_ok {
  selectbox_member :
    forall label options, options <> [] -> In (selectbox u label options) options;
  slider_bounds :
    forall label lo hi v step,
      lo <= v <= hi -> 0 < step -> (v - lo) mod step = 0 ->
      lo <= slider u label lo hi v step <= hi /\
      (slider u label lo hi v step - lo) mod step = 0;
  number_input_bounds :
    forall label lo hi v,
      lo <= v <= hi -> lo <= number_input u label lo hi v <= hi
}.

(** The untouched form: every widget answers its default. *)
Definition default_ui : UI :=
  {| selectbox := fun _ options => hd "" options;
     slider := fun _ _ _ value _ => value;
     number_input := fun _ _ _ value => value;
     button := fun _ => false |}.

(** The same form with the button pressed. *)
Definition pressed_ui : UI :=
  {| selectbox := selectbox default_ui;
     slider := slider default_ui;
     number_input := number_input default_ui;
     button := fun _ => true |}.

Definition env_with (u : UI) (artifact : FileState) : Env :=
  {| ui := u; fs := fun _ => artifact |}.

(** Elements that show a prediction: verdict, scores, risk level. *)
Definition is_result_element (e : Element) : bool :=
  match e with
  | Markdown FraudDetectedBox
  | Markdown LowFraudRiskBox
  | Markdown ConfidenceScoresHeading
  | Markdown RiskAssessmentHeading
  | Markdown (RiskLevelText _ _) => true
  | Metric _ _ => true
  | Progress _ => true
  | _ => false
  end.

(** Caches a process can hold: empty at start, then whatever runs leave. *)
Inductive reachable : Cache -> Prop :=
| reachable_start : reachable None
| reachable_run (env : Env) (c : Cache) : reachable c -> reachable (cache_of (main env c)).

(** Entries [load_model] stores: the loaded object with nothing rendered,
    or [None] with the error it showed. *)
Definition cache_inv (c : Cache) : Prop :=
  match c with
  | None => True
  | Some (_, elements) => elements = [] \/ exists message, elements = [ErrorBox message]
  end.

Definition tolerance : Q := 1 # 1000000.

Definition probability_pair (row : list Q) : Prop :=
  exists p0 p1 : Q,
    row = [p0; p1] /\
    (0 <= p0 /\ p0 <= 1)%Q /\ (0 <= p1 /\ p1 <= 1)%Q /\
    (Qabs (p0 + p1 - 1) <= tolerance)%Q.

(** Modelled from the spec: what the absent artifact computes.  The spec
    describes it as a binary classifier: on valid records [predict] gives
    labels in {0, 1} and [predict_proba] gives pairs of probabilities that
    sum to 1 up to rounding. *)
Definition binary_classifier (m : Model) : Prop :=
  forall df : DataFrame,
    Forall valid_record df ->
    (forall labels, predict m df = Ret labels ->
                    Forall (fun label => label = 0 \/ label = 1) labels) /\
    (forall rows, predict_proba m df = Ret rows -> Forall probability_pair rows).

(** *** Concrete handles and records used as instances *)

(** A classifier that answers the same label and row for every record and
    never rejects one. *)
Definition constant_model (label : Z) (row : list Q) : Model :=
  {| predict := fun df => Ret (map (fun _ => label) df);
     predict_proba := fun df => Ret (map (fun _ => row) df);
     trained_domain := form_domain |}.


Definition default_record : Features := features_of (env_with default_ui Absent).



(** No string occurs twice. *)
Fixpoint distinct (l : list string) : bool :=
  match l with
  | [] => true
  | x :: l' => negb (mem x l') && distinct l'
  end.

Definition is_categorical_domain (d : Domain) : bool :=
  match d with Categorical _ => true | Numeric _ _ _ => false end.

(** Runs that end in the error outcome of [load_model] and of
    [make_prediction]. *)
Definition load_failed (c : Cache) (message : string) : Run (option Model) :=
  mkRun (Returned None) c [ErrorBox message].

Definition prediction_failed (c : Cache) (e : exn)
  : Run (option Z * option (list Q)) :=
  mkRun (Returned (None, None)) c [ErrorBox (prediction_error_message e)].

(** A run that shows no prediction. *)
Definition quiet {A : Type} (r : Run A) : Prop :=
  existsb is_result_element (rendered r) = false.

(** A script that leaves the resource cache as it found it. *)
Definition keeps {A : Type} (m : App A) : Prop :=
  forall env c, cache_of (m env c) = c.

(** ** Vocabulary for whole pages *)

(** [r] with [elements] rendered before it. *)
Definition prepend {A : Type} (elements : list Element) (r : Run A) : Run A :=
  mkRun (outcome r) (cache_of r) (elements ++ rendered r).

(** What the sidebar block of [main] renders. *)
Definition sidebar_elements : list Element :=
  [ Markdown ModelInformationHeading; Markdown ModelInformationBox;
    Markdown InstructionsHeading; Markdown InstructionsList ].

(** What [create_input_features] renders, in order. *)
Definition form_elements : list Element :=
  [ Markdown MainHeader;
    Subheader "📅 Temporal Information";
    Widget "Month"; Widget "Day of Week"; Widget "Week of Month";
    Widget "Week of Month (Claimed)"; Widget "Month Claimed";
    Widget "Day of Week (Claimed)";
    Subheader "🚗 Vehicle & Policy Information";
    Widget "Vehicle Make"; Widget "Vehicle Category"; Widget "Vehicle Price Range";
    Widget "Age of Vehicle"; Widget "Policy Type"; Widget "Base Policy";
    Widget "Deductible";
    Subheader "👤 Personal Information";
    Widget "Sex"; Widget "Marital Status"; Widget "Age";
    Widget "Age Group of Policy Holder"; Widget "At Fault"; Widget "Accident Area";
    Widget "Driver Rating";
    Subheader "📊 Additional Details";
    Widget "Policy Number"; Widget "Rep Number"; Widget "Year";
    Widget "Days Policy to Accident"; Widget "Days Policy to Claim";
    Widget "Past Number of Claims"; Widget "Police Report Filed";
    Widget "Witness Present"; Widget "Agent Type"; Widget "Number of Suppliments";
    Widget "Address Change Claim"; Widget "Number of Cars" ].

(** Everything [main] renders after a load and before the prediction
    block. *)
Definition page_head : list Element :=
  sidebar_elements ++ form_elements ++ [Markdown HorizontalRule; Widget predict_button].

Definition footer_elements : list Element :=
  [Markdown HorizontalRule; Markdown AboutThisModel].

(** What the block under [if prediction is not None:] renders for a label
    and a probability pair. *)
Definition result_elements (prediction : Z) (p0 p1 : Q) : list Element :=
  [ Markdown (if prediction =? 1 then FraudDetectedBox else LowFraudRiskBox);
    Markdown ConfidenceScoresHeading;
    Metric "No Fraud Probability" p0;
    Metric "Fraud Probability" p1;
    Markdown RiskAssessmentHeading;
    Progress p1;
    Markdown (RiskLevelText (risk_level p1) (snd (risk_interpretation p1))) ].

(** The block of [main] under the button, for the handle, the record and
    the button state it is reached with. *)
Definition prediction_section (model : option Model) (features : Features)
           (clicked : bool) : App unit :=
  if clicked then
    result <- make_prediction model features ;;
    let '(prediction, prediction_proba) := result in
    match prediction with
    | Some prediction => render_result prediction prediction_proba
    | None => ret tt
    end
  else ret tt.

(** LOW < MEDIUM < HIGH. *)
Definition risk_rank (level : string) : nat :=
  if String.eqb level HIGH then 2
  else if String.eqb level MEDIUM then 1
  else 0.

Definition is_error_box (e : Element) : bool :=
  match e with ErrorBox _ => true | _ => false end.

Definition count_errors (elements : list Element) : nat :=
  List.length (filter is_error_box elements).

Definition widget_labels (elements : list Element) : list string :=
  flat_map (fun e => match e with Widget label => [label] | _ => [] end) elements.

(** Entries [load_model] stores, exactly: an object with nothing rendered,
    or [None] with at most the error it showed. *)
Definition cache_exact (c : Cache) : Prop :=
  match c with
  | None => True
  | Some (Some _, elements) => elements = []
  | Some (None, elements) => count_errors elements = List.length elements /\
                             (List.length elements <= 1)%nat
  end.

(** The cache after the runs of a process, one environment per run. *)
Definition cache_after (runs : list Env) (c : Cache) : Cache :=
  fold_left (fun c env => cache_of (main env c)) runs c.

(** A run that shows no error box. *)
Definition errorless {A : Type} (r : Run A) : Prop :=
  existsb is_error_box (rendered r) = false.

(** A handle whose two methods raise [e] on every frame. *)
Definition failing_model (e : exn) : Model :=
  {| predict := fun _ => Exc e;
     predict_proba := fun _ => Exc e;
     trained_domain := form_domain |}.

Definition loaded_env (u : UI) (m : Model) : Env :=
  env_with u (Readable (Pickled (Some m))).

(** * Properties *)

(** ** Risk interpretation *)

Lemma Qle_bool_false (x y : Q) : Qle_bool x y = false <-> (y < x)%Q.
Proof.
  split; intro H.
  - apply Qnot_le_lt. intro L. apply Qle_bool_iff in L. congruence.
  - destruct (Qle_bool x y) eqn:E; [|reflexivity].
    apply Qle_bool_iff in E. lra.
Qed.

Lemma risk_levels_distinct : HIGH <> MEDIUM /\ HIGH <> LOW /\ MEDIUM <> LOW.
Proof. repeat split; discriminate. Qed.

(** The three branches of the cascade with the condition that selects each. *)
Lemma risk_interpretation_cases (p : Q) :
  ((0.7 <= p)%Q /\
   risk_interpretation p = (HIGH, "Immediate investigation recommended")) \/
  ((0.4 <= p)%Q /\ (p < 0.7)%Q /\
   risk_interpretation p = (MEDIUM, "Additional review suggested")) \/
  ((p < 0.4)%Q /\
   risk_interpretation p = (LOW, "Standard processing appropriate")).
Proof.
  unfold risk_interpretation.
  destruct (Qle_bool 0.7 p) eqn:E1.
  - left. apply Qle_bool_iff in E1. auto.
  - apply Qle_bool_false in E1.
    destruct (Qle_bool 0.4 p) eqn:E2.
    + right; left. apply Qle_bool_iff in E2. auto.
    + right; right. apply Qle_bool_false in E2. auto.
Qed.

Lemma risk_interpretation_compat (p q : Q) :
  (p == q)%Q -> risk_interpretation p = risk_interpretation q.
Proof.
  intro E. unfold risk_interpretation.
  rewrite (Qleb_comp 0.7%Q 0.7%Q (Qeq_refl _) p q E).
  rewrite (Qleb_comp 0.4%Q 0.4%Q (Qeq_refl _) p q E).
  reflexivity.
Qed.

Lemma st_progress_in_range (p : Q) (env : Env) (c : Cache) :
  (0 <= p)%Q -> (p <= 1)%Q -> st_progress p env c = mkRun (Returned tt) c [Progress p].
Proof.
  intros H0 H1. unfold st_progress.
  apply Qle_bool_iff in H0. apply Qle_bool_iff in H1.
  rewrite H0, H1. reflexivity.
Qed.

(** What [main] shows for a label and a probability pair. *)
Lemma render_result_complete (prediction : Z) (p0 p1 : Q) (env : Env) (c : Cache) :
  (0 <= p1)%Q -> (p1 <= 1)%Q ->
  render_result prediction (Some [p0; p1]) env c =
  mkRun (Returned tt) c
    [ Markdown (if prediction =? 1 then FraudDetectedBox else LowFraudRiskBox);
      Markdown ConfidenceScoresHeading;
      Metric "No Fraud Probability" p0;
      Metric "Fraud Probability" p1;
      Markdown RiskAssessmentHeading;
      Progress p1;
      Markdown (RiskLevelText (risk_level p1) (snd (risk_interpretation p1))) ].
Proof.
  intros H0 H1. unfold render_result, risk_level.
  unfold bind at 1.
  destruct (prediction =? 1); cbn;
  unfold bind; cbn; rewrite (st_progress_in_range p1 env c H0 H1); cbn;
  destruct (risk_interpretation p1) as [level recommendation]; reflexivity.
Qed.

(** C1.  For a fraud probability p1 between 0 and 1 the risk level is HIGH
    exactly when p1 >= 0.7, MEDIUM exactly when 0.4 <= p1 < 0.7 and LOW
    exactly when p1 < 0.4; one of the three always applies, the three
    levels are different, the level depends on the value of p1 only, and it
    is the level [main] prints for a result whose fraud probability is p1. *)
Theorem risk_level_thresholds (p1 : Q) (Hrange : (0 <= p1 /\ p1 <= 1)%Q) :
  (risk_level p1 = HIGH <-> (0.7 <= p1)%Q) /\
  (risk_level p1 = MEDIUM <-> (0.4 <= p1 /\ p1 < 0.7)%Q) /\
  (risk_level p1 = LOW <-> (p1 < 0.4)%Q) /\
  (risk_level p1 = HIGH \/ risk_level p1 = MEDIUM \/ risk_level p1 = LOW) /\
  (HIGH <> MEDIUM /\ HIGH <> LOW /\ MEDIUM <> LOW) /\
  (forall q : Q, (q == p1)%Q -> risk_level q = risk_level p1) /\
  (forall prediction p0 env c,
      exists recommendation,
        last (rendered (render_result prediction (Some [p0; p1]) env c))
             (Markdown MainHeader)
        = Markdown (RiskLevelText (risk_level p1) recommendation)).
Proof.
  destruct risk_levels_distinct as (HM & HL & ML).
  unfold risk_level.
  destruct (risk_interpretation_cases p1) as [(C & E) | [(C1 & C2 & E) | (C & E)]];
    rewrite E; cbn [fst].
  all: repeat split; try (intros; exfalso; congruence); try (intros; lra);
    try tauto.
  all: try (intros q Hq; rewrite (risk_interpretation_compat q p1 Hq), E; reflexivity).
  all: intros prediction p0 env c; destruct Hrange as [H0 H1];
    rewrite (render_result_complete prediction p0 p1 env c H0 H1);
    eexists; cbn; unfold risk_level; rewrite E; reflexivity.
Qed.

Lemma risk_level_thresholds_witness :
  risk_level 0.82 = HIGH /\ risk_level 0.5 = MEDIUM /\ risk_level 0.1 = LOW.
Proof.
  split; [|split].
  - destruct (risk_level_thresholds 0.82) as (H & _); [split; discriminate|].
    apply H. discriminate.
  - destruct (risk_level_thresholds 0.5) as (_ & H & _); [split; discriminate|].
    apply H. split; [discriminate|reflexivity].
  - destruct (risk_level_thresholds 0.1) as (_ & _ & H & _); [split; discriminate|].
    apply H. reflexivity.
Defined.

(** ** The record built by the form *)

Lemma mem_In (s : string) (l : list string) : mem s l = true <-> In s l.
Proof.
  unfold mem. rewrite existsb_exists. split.
  - intros (x & Hx & E). apply String.eqb_eq in E. subst. exact Hx.
  - intro H. exists s. split; [exact H | apply String.eqb_refl].
Qed.

Lemma distinct_NoDup (l : list string) : distinct l = true -> NoDup l.
Proof.
  induction l as [|x l IH]; cbn [distinct]; intro H.
  - constructor.
  - apply andb_true_iff in H. destruct H as [Hx Hl].
    constructor.
    + intro Hin. apply mem_In in Hin. rewrite Hin in Hx. discriminate.
    + apply IH, Hl.
Qed.

(** The form always returns; its value is [features_of]. *)
Lemma create_input_features_returns (env : Env) (c : Cache) :
  outcome (create_input_features env c) = Returned (features_of env) /\
  cache_of (create_input_features env c) = c /\
  existsb is_result_element (rendered (create_input_features env c)) = false.
Proof. repeat split. Qed.

(** C2 (as stated, refuted).  The record of an untouched form does not have
    31 fields split into 17 categorical and 14 numeric ones. *)
Lemma claim_record_not_31_fields :
  ~ (List.length default_record = 31%nat /\
     count_fields is_categorical default_record = 17%nat /\
     count_fields is_numeric default_record = 14%nat).
Proof. intros (H & _). vm_compute in H. discriminate. Qed.

(** C2 (amended).  Whatever the browser answers, the record returned by the
    form has the fixed schema of 32 distinct named fields, in the order of
    [schema]; exactly 24 of them are categorical (filled by a selectbox over
    a fixed enumeration) and exactly 8 are numeric (filled by a slider or a
    number input with bounds). *)
Theorem claim_record_schema (env : Env) :
  map fst (features_of env) = map fst schema /\
  NoDup (map fst (features_of env)) /\
  List.length (features_of env) = 32%nat /\
  count_fields is_categorical (features_of env) = 24%nat /\
  count_fields is_numeric (features_of env) = 8%nat /\
  map (fun field => is_categorical (snd field)) (features_of env)
  = map (fun entry => is_categorical_domain (snd entry)) schema.
Proof.
  repeat split.
  apply distinct_NoDup. reflexivity.
Qed.

(** ** Domain invariant of the form *)

Lemma on_grid_true (lo hi step z : Z) :
  on_grid lo hi step z = true <-> lo <= z <= hi /\ (z - lo) mod step = 0.
Proof.
  unfold on_grid. rewrite !andb_true_iff, !Z.leb_le, Z.eqb_eq. tauto.
Qed.

Lemma default_ui_ok : ui_ok default_ui.
Proof.
  constructor; cbn.
  - intros _ [|o options] H; [congruence | left; reflexivity].
  - intros _ lo hi v step Hv _ Hm. split; assumption.
  - intros _ lo hi v Hv. assumption.
Qed.

Section Form.
Variable u : UI.
Hypothesis Hui : ui_ok u.

Lemma mem_selectbox (label : string) (options : list string) :
  options <> [] -> mem (selectbox u label options) options = true.
Proof. intro H. apply mem_In, (selectbox_member u Hui), H. Qed.

Lemma on_grid_slider (label : string) (lo hi v step : Z) :
  lo <= v <= hi -> 0 < step -> (v - lo) mod step = 0 ->
  on_grid lo hi step (slider u label lo hi v step) = true.
Proof. intros Hv Hs Hm. apply on_grid_true, (slider_bounds u Hui); assumption. Qed.

Lemma on_grid_number_input (label : string) (lo hi v : Z) :
  lo <= v <= hi -> on_grid lo hi 1 (number_input u label lo hi v) = true.
Proof.
  intro Hv. apply on_grid_true. split.
  - apply (number_input_bounds u Hui), Hv.
  - apply Z.mod_1_r.
Qed.
End Form.

Lemma unseen_in_false (domain : string -> list string) (record : Features) :
  (forall name s, In (name, VStr s) record -> In s (domain name)) ->
  unseen_in domain record = false.
Proof.
  intro H. destruct (unseen_in domain record) eqn:E; [|reflexivity].
  apply existsb_exists in E. destruct E as ([name v] & Hin & Hf).
  destruct v as [s|z]; cbn in Hf; [|discriminate].
  apply H, mem_In in Hin. rewrite Hin in Hf. discriminate.
Qed.

Lemma step_100_values (d : Z) :
  300 <= d <= 700 -> (d - 300) mod 100 = 0 -> In d [300; 400; 500; 600; 700].
Proof.
  intros Hd Hm.
  assert (d = 300 \/ d = 400 \/ d = 500 \/ d = 600 \/ d = 700) as H
    by (Z.to_euclidean_division_equations; lia).
  cbn. intuition auto.
Qed.

(** C9.  When the widgets honour their contract, the record the form
    returns is within its domain by construction: it conforms to [schema],
    every categorical value is one of the options of its selectbox, and the
    numeric values lie within the widget bounds (Age 16..80, Year
    1994..1996, Deductible one of 300, 400, 500, 600, 700, WeekOfMonth 1..5,
    WeekOfMonthClaimed 0..5, DriverRating 1..4, RepNumber 1..16,
    PolicyNumber 1..15420).  Hence for a model trained on every value the
    form offers, no value of the record is unseen. *)
Theorem form_record_in_domain (env : Env) (Hui : ui_ok (ui env)) :
  valid_record (features_of env) /\
  (forall name s, In (name, VStr s) (features_of env) -> In s (form_domain name)) /\
  (exists age year deductible week_of_month week_of_month_claimed
          driver_rating rep_number policy_number : Z,
      get "Age" (features_of env) = Some (VInt age) /\ 16 <= age <= 80 /\
      get "Year" (features_of env) = Some (VInt year) /\ 1994 <= year <= 1996 /\
      get "Deductible" (features_of env) = Some (VInt deductible) /\
      In deductible [300; 400; 500; 600; 700] /\
      get "WeekOfMonth" (features_of env) = Some (VInt week_of_month) /\
      1 <= week_of_month <= 5 /\
      get "WeekOfMonthClaimed" (features_of env) = Some (VInt week_of_month_claimed) /\
      0 <= week_of_month_claimed <= 5 /\
      get "DriverRating" (features_of env) = Some (VInt driver_rating) /\
      1 <= driver_rating <= 4 /\
      get "RepNumber" (features_of env) = Some (VInt rep_number) /\
      1 <= rep_number <= 16 /\
      get "PolicyNumber" (features_of env) = Some (VInt policy_number) /\
      1 <= policy_number <= 15420) /\
  (forall m, covers_form m -> unseen m (features_of env) = false).
Proof.
  assert (forall name s, In (name, VStr s) (features_of env) -> In s (form_domain name))
    as Hcat.
  { intros name s Hin. cbn in Hin.
    repeat (destruct Hin as [Hin | Hin];
            [ try discriminate Hin; injection Hin as <- <-;
              apply (selectbox_member _ Hui); discriminate | ]).
    destruct Hin. }
  split; [|split; [exact Hcat|split]].
  - unfold valid_record, features_of, schema. cbn -[mem on_grid].
    rewrite !(mem_selectbox _ Hui) by discriminate.
    rewrite !(on_grid_slider _ Hui) by (try reflexivity; lia).
    rewrite (on_grid_number_input _ Hui) by lia.
    reflexivity.
  - do 8 eexists. cbn.
    repeat match goal with
           | |- _ /\ _ => split
           | |- Some _ = Some _ => reflexivity
           end.
    all: try (apply (slider_bounds _ Hui); try reflexivity; lia).
    + apply step_100_values; apply (slider_bounds _ Hui); try reflexivity; lia.
    + apply (number_input_bounds _ Hui); lia.
    + apply (number_input_bounds _ Hui); lia.
  - intros m Hm. apply unseen_in_false.
    intros name s Hin. apply Hm, Hcat, Hin.
Qed.

Lemma form_record_in_domain_witness :
  valid_record default_record /\
  unseen (constant_model 0 [1; 0]%Q) default_record = false.
Proof.
  destruct (form_record_in_domain (env_with default_ui Absent) default_ui_ok)
    as (Hvalid & _ & _ & Hseen).
  split.
  - exact Hvalid.
  - apply Hseen. intros column value H. exact H.
Defined.

(** ** Loading the artifact *)

(** The undecorated body, by the state of the artifact on disk. *)
Lemma load_model_body_cases (env : Env) (c : Cache) :
  load_model_body env c =
  match fs env model_path with
  | Absent => load_failed c not_found_message
  | Unopenable e | Readable (Garbled e) =>
      if isinstance e FileNotFoundError then load_failed c not_found_message
      else load_failed c (load_error_message e)
  | Readable (Pickled object) => mkRun (Returned object) c []
  end.
Proof.
  unfold load_model_body, try_except, bind, open_rb.
  destruct (fs env model_path) as [|e|[e|m]]; cbn.
  - reflexivity.
  - destruct (isinstance e FileNotFoundError); reflexivity.
  - destruct (isinstance e FileNotFoundError); reflexivity.
  - reflexivity.
Qed.

(** A call of [load_model] never raises and never stops the run; it keeps
    the cache well formed and renders at most an error box. *)
Lemma load_model_returns (env : Env) (c : Cache) :
  cache_inv c ->
  exists handle,
    outcome (load_model env c) = Returned handle /\
    cache_inv (cache_of (load_model env c)) /\
    (rendered (load_model env c) = [] \/
     exists message, rendered (load_model env c) = [ErrorBox message]).
Proof.
  intro Hc. unfold load_model, cache_resource.
  destruct c as [[value elements]|].
  - exists value. cbn. repeat split; exact Hc.
  - rewrite load_model_body_cases.
    destruct (fs env model_path) as [|e|[e|m]];
      try destruct (isinstance e FileNotFoundError);
      cbn; eexists; repeat split; cbn; eauto.
Qed.

(** The [try] block covers [pickle.load] as well as [open]: an unpickling
    that itself raises a FileNotFoundError is reported by the first
    handler. *)
Remark load_model_unpickling_file_not_found (env : Env) (e : exn) :
  isinstance e FileNotFoundError = true ->
  fs env model_path = Readable (Garbled e) ->
  load_model env None =
  mkRun (Returned None) (Some (None, [ErrorBox not_found_message]))
        [ErrorBox not_found_message].
Proof.
  intros He H. unfold load_model, cache_resource.
  rewrite load_model_body_cases, H, He. reflexivity.
Qed.

(** A warm cache answers without touching the disk. *)
Remark load_model_cached (env : Env) (value : option Model) (elements : list Element) :
  load_model env (Some (value, elements)) =
  mkRun (Returned value) (Some (value, elements)) elements.
Proof. reflexivity. Qed.



(** ** The inference call *)

(** [make_prediction] by what the two model calls do on the one-row frame. *)
Lemma make_prediction_cases (handle : option Model) (record : Features)
      (env : Env) (c : Cache) :
  make_prediction handle record env c =
  match call_predict handle [record] with
  | Exc e => prediction_failed c e
  | Ret [] => prediction_failed c index_error
  | Ret (prediction :: _) =>
      match call_predict_proba handle [record] with
      | Exc e => prediction_failed c e
      | Ret [] => prediction_failed c index_error
      | Ret (prediction_proba :: _) =>
          mkRun (Returned (Some prediction, Some prediction_proba)) c []
      end
  end.
Proof.
  unfold make_prediction, try_except, bind.
  destruct (call_predict handle [record]) as [[|prediction labels]|e]; cbn;
    try reflexivity.
  destruct (call_predict_proba handle [record]) as [[|row rows]|e]; reflexivity.
Qed.

(** C4.  For every handle (including [None]) and every record,
    [make_prediction] returns, and what it returns is either a complete
    result (a label together with a probability row, nothing rendered) or
    the error outcome (both components [None], after showing the error).
    No exception leaves the call, the cache is untouched, and a failure of
    either model call gives the error outcome with that failure's text. *)
Theorem make_prediction_atomic (handle : option Model) (record : Features)
        (env : Env) (c : Cache) :
  ((exists prediction prediction_proba,
       make_prediction handle record env c =
       mkRun (Returned (Some prediction, Some prediction_proba)) c []) \/
   (exists e, make_prediction handle record env c = prediction_failed c e)) /\
  (forall e, call_predict handle [record] = Exc e ->
             make_prediction handle record env c = prediction_failed c e) /\
  (forall e prediction labels,
      call_predict handle [record] = Ret (prediction :: labels) ->
      call_predict_proba handle [record] = Exc e ->
      make_prediction handle record env c = prediction_failed c e).
Proof.
  rewrite make_prediction_cases. split; [|split].
  - destruct (call_predict handle [record]) as [[|prediction labels]|e]; eauto.
    destruct (call_predict_proba handle [record]) as [[|row rows]|e]; eauto.
  - intros e H. rewrite H. reflexivity.
  - intros e prediction labels H1 H2. rewrite H1, H2. reflexivity.
Qed.

(** C10.  For every handle and every record the pair returned by
    [make_prediction] has both components present or both [None]. *)
Theorem make_prediction_components_together (handle : option Model)
        (record : Features) (env : Env) (c : Cache) :
  exists prediction prediction_proba,
    outcome (make_prediction handle record env c)
    = Returned (prediction, prediction_proba) /\
    (prediction = None <-> prediction_proba = None).
Proof.
  rewrite make_prediction_cases.
  destruct (call_predict handle [record]) as [[|prediction labels]|e];
    try (exists None, None; cbn; tauto).
  destruct (call_predict_proba handle [record]) as [[|row rows]|e];
    try (exists None, None; cbn; tauto).
  exists (Some prediction), (Some row). cbn. split; [reflexivity|].
  split; discriminate.
Qed.

(** C6.  With the handle fixed, the result of [make_prediction] is
    determined by the record: it is the same in every environment and cache
    state, a second call right after the first returns the same pair, and
    the call leaves the cache as it found it. *)
Theorem make_prediction_deterministic (handle : option Model) (record : Features) :
  (forall env1 c1 env2 c2,
      outcome (make_prediction handle record env1 c1)
      = outcome (make_prediction handle record env2 c2)) /\
  (forall env c,
      exists result,
        outcome ((first <- make_prediction handle record ;;
                  second <- make_prediction handle record ;;
                  ret (first, second)) env c)
        = Returned (result, result)) /\
  (forall env c, cache_of (make_prediction handle record env c) = c).
Proof.
  split; [|split].
  - intros env1 c1 env2 c2. rewrite !make_prediction_cases.
    destruct (call_predict handle [record]) as [[|prediction labels]|e];
      try reflexivity.
    destruct (call_predict_proba handle [record]) as [[|row rows]|e]; reflexivity.
  - intros env c. unfold bind. rewrite !make_prediction_cases.
    destruct (call_predict handle [record]) as [[|prediction labels]|e];
      try (eexists; cbn; reflexivity).
    destruct (call_predict_proba handle [record]) as [[|row rows]|e];
      eexists; cbn; reflexivity.
  - intros env c. rewrite make_prediction_cases.
    destruct (call_predict handle [record]) as [[|prediction labels]|e];
      try reflexivity.
    destruct (call_predict_proba handle [record]) as [[|row rows]|e]; reflexivity.
Qed.

(** ** What a successful prediction carries *)

Lemma constant_model_binary (label : Z) (row : list Q) :
  label = 0 \/ label = 1 -> probability_pair row ->
  binary_classifier (constant_model label row).
Proof.
  intros Hl Hr df _. split.
  - intros labels E. injection E as <-.
    apply Forall_forall. intros x Hx.
    apply in_map_iff in Hx. destruct Hx as (_ & <- & _). exact Hl.
  - intros rows E. injection E as <-.
    apply Forall_forall. intros x Hx.
    apply in_map_iff in Hx. destruct Hx as (_ & <- & _). exact Hr.
Qed.

Lemma probability_pair_example : probability_pair [0.18; 0.82]%Q.
Proof.
  exists 0.18%Q, 0.82%Q. repeat split; discriminate.
Qed.


(** C7.  For a handle that is a binary classifier in the sense of the spec
    and a valid record, a successful [make_prediction] returns a label that
    is 0 or 1 and a probability row that is a pair (p0, p1) with both
    entries between 0 and 1 and p0 + p1 within 1e-6 of 1. *)
Theorem prediction_result_well_formed (m : Model) (record : Features)
        (env : Env) (c : Cache) (prediction : Z) (prediction_proba : list Q)
        (Hmodel : binary_classifier m)
        (Hvalid : valid_record record)
        (Hsuccess : outcome (make_prediction (Some m) record env c)
                    = Returned (Some prediction, Some prediction_proba)) :
  (prediction = 0 \/ prediction = 1) /\ probability_pair prediction_proba.
Proof.
  destruct (Hmodel [record]) as [Hlabels Hrows].
  { constructor; [exact Hvalid | constructor]. }
  rewrite make_prediction_cases in Hsuccess. cbn [call_predict call_predict_proba] in *.
  destruct (predict m [record]) as [[|l labels]|e]; try discriminate Hsuccess.
  destruct (predict_proba m [record]) as [[|row rows]|e]; try discriminate Hsuccess.
  cbn in Hsuccess. injection Hsuccess as <- <-.
  specialize (Hlabels _ eq_refl). specialize (Hrows _ eq_refl).
  inversion Hlabels; subst. inversion Hrows; subst. split; assumption.
Qed.

Lemma prediction_result_well_formed_witness :
  (1 = 0 \/ 1 = 1) /\ probability_pair [0.18; 0.82]%Q.
Proof.
  apply (prediction_result_well_formed
           (constant_model 1 [0.18; 0.82]%Q) default_record
           (env_with pressed_ui Absent) None 1 [0.18; 0.82]%Q).
  - apply constant_model_binary; [right; reflexivity | exact probability_pair_example].
  - reflexivity.
  - reflexivity.
Defined.

(** ** Values the model was not trained on *)




(** ** The page script *)

Lemma quiet_bind {A B : Type} (m : App A) (k : A -> App B) (env : Env) (c : Cache) :
  quiet (m env c) ->
  (forall a, outcome (m env c) = Returned a -> quiet (k a env (cache_of (m env c)))) ->
  quiet (bind m k env c).
Proof.
  unfold quiet, bind. intros Hm Hk.
  destruct (outcome (m env c)) as [a| |]; cbn; try exact Hm.
  rewrite existsb_app, Hm. apply Hk. reflexivity.
Qed.

Lemma keeps_bind {A B : Type} (m : App A) (k : A -> App B) :
  keeps m -> (forall a, keeps (k a)) -> keeps (bind m k).
Proof.
  unfold keeps, bind. intros Hm Hk env c.
  destruct (outcome (m env c)); cbn; rewrite ?Hk; apply Hm.
Qed.

Lemma make_prediction_outcome (handle : option Model) (record : Features)
      (env1 env2 : Env) (c1 c2 : Cache) :
  outcome (make_prediction handle record env1 c1)
  = outcome (make_prediction handle record env2 c2).
Proof.
  rewrite !make_prediction_cases.
  destruct (call_predict handle [record]) as [[|prediction labels]|e];
    try reflexivity.
  destruct (call_predict_proba handle [record]) as [[|row rows]|e]; reflexivity.
Qed.

Lemma make_prediction_quiet (handle : option Model) (record : Features)
      (env : Env) (c : Cache) :
  quiet (make_prediction handle record env c).
Proof.
  rewrite make_prediction_cases.
  destruct (call_predict handle [record]) as [[|prediction labels]|e];
    try reflexivity.
  destruct (call_predict_proba handle [record]) as [[|row rows]|e]; reflexivity.
Qed.

Lemma keeps_make_prediction (handle : option Model) (record : Features) :
  keeps (make_prediction handle record).
Proof.
  intros env c. rewrite make_prediction_cases.
  destruct (call_predict handle [record]) as [[|prediction labels]|e];
    try reflexivity.
  destruct (call_predict_proba handle [record]) as [[|row rows]|e]; reflexivity.
Qed.

Lemma keeps_call {A : Type} (x : Except A) : keeps (call x).
Proof. destruct x; intros env c; reflexivity. Qed.

Ltac keeps_script :=
  repeat match goal with
         | |- keeps (bind _ _) => apply keeps_bind; [|intro]
         | |- keeps (make_prediction _ _) => apply keeps_make_prediction
         | |- keeps (call _) => apply keeps_call
         | |- keeps (if ?b then _ else _) => destruct b
         | |- keeps (match ?x with (_, _) => _ end) => destruct x
         | |- keeps (match ?x with Some _ => _ | None => _ end) => destruct x
         | |- keeps (st_progress _) => unfold st_progress
         | |- keeps (render_result _ _) => unfold render_result
         | |- keeps _ => intros ? ?; reflexivity
         end.

Lemma main_cache (env : Env) (c : Cache) :
  cache_of (main env c) = cache_of (load_model env c).
Proof.
  unfold main, bind at 1.
  destruct (outcome (load_model env c)) as [handle| |];
    [|reflexivity|reflexivity].
  cbn [cache_of].
  match goal with |- cache_of (?k env ?c') = _ => assert (keeps k) as H end.
  { keeps_script. }
  apply H.
Qed.

Lemma reachable_cache_inv (c : Cache) : reachable c -> cache_inv c.
Proof.
  induction 1 as [|env c _ IH]; [exact I|].
  rewrite main_cache.
  destruct (load_model_returns env c IH) as (_ & _ & H & _). exact H.
Qed.

Lemma load_model_quiet (env : Env) (c : Cache) :
  cache_inv c -> quiet (load_model env c).
Proof.
  intro Hc. unfold quiet.
  destruct (load_model_returns env c Hc) as (_ & _ & _ & [H | (message & H)]);
    rewrite H; reflexivity.
Qed.

(** Unless the model loaded, the button was pressed and the prediction
    succeeded, a run shows no result element. *)
Lemma main_quiet (env : Env) (c : Cache) :
  cache_inv c ->
  (forall m, outcome (load_model env c) = Returned (Some m) ->
             button (ui env) predict_button = true ->
             outcome (make_prediction (Some m) (features_of env) env c)
             = Returned (None, None)) ->
  quiet (main env c).
Proof.
  intros Hc Hfail. unfold main.
  apply quiet_bind; [apply load_model_quiet, Hc|].
  intros handle Hload.
  apply quiet_bind; [destruct handle; reflexivity|].
  intros [] Hgo. destruct handle as [m|]; [clear Hgo | discriminate Hgo].
  do 4 (apply quiet_bind; [reflexivity | intros _ _]).
  apply quiet_bind; [reflexivity | intros features Hfeatures].
  rewrite (proj1 (create_input_features_returns env _)) in Hfeatures.
  injection Hfeatures as <-.
  apply quiet_bind; [reflexivity | intros _ _].
  apply quiet_bind; [reflexivity | intros clicked Hclicked].
  injection Hclicked as <-.
  apply quiet_bind; [| intros _ _; apply quiet_bind; [reflexivity | intros _ _; reflexivity]].
  destruct (button (ui env) predict_button) eqn:Hb; [|reflexivity].
  apply quiet_bind; [apply make_prediction_quiet|].
  intros result Hresult.
  rewrite (make_prediction_outcome _ _ _ env _ c), (Hfail m Hload eq_refl) in Hresult.
  injection Hresult as <-. reflexivity.
Qed.

Lemma make_prediction_outcome_cases (handle : option Model) (record : Features)
      (env : Env) (c : Cache) :
  (exists prediction prediction_proba,
      outcome (make_prediction handle record env c)
      = Returned (Some prediction, Some prediction_proba)) \/
  outcome (make_prediction handle record env c) = Returned (None, None).
Proof.
  rewrite make_prediction_cases.
  destruct (call_predict handle [record]) as [[|prediction labels]|e]; auto.
  destruct (call_predict_proba handle [record]) as [[|row rows]|e]; cbn; eauto.
Qed.

Lemma bind_run {A B : Type} (m : App A) (k : A -> App B) (env : Env) (c : Cache) :
  bind m k env c =
  match outcome (m env c) with
  | Returned a =>
      mkRun (outcome (k a env (cache_of (m env c))))
            (cache_of (k a env (cache_of (m env c))))
            (rendered (m env c) ++ rendered (k a env (cache_of (m env c))))
  | Raised e => mkRun (Raised e) (cache_of (m env c)) (rendered (m env c))
  | Stopped => mkRun Stopped (cache_of (m env c)) (rendered (m env c))
  end.
Proof. reflexivity. Qed.

(** When loading failed the run stops right after the loader. *)
Lemma main_load_failed (env : Env) (c : Cache) :
  outcome (load_model env c) = Returned None ->
  main env c =
  mkRun Stopped (cache_of (load_model env c)) (rendered (load_model env c)).
Proof.
  intro Hload. unfold main. rewrite bind_run, Hload.
  rewrite bind_run. cbn [st_stop outcome cache_of rendered].
  rewrite app_nil_r. reflexivity.
Qed.

(** C5.  In every run of the page, from any cache a process can hold:
    if [load_model] returns [None] the run stops having shown nothing but
    the loader's error; if [make_prediction] returns the error outcome no
    result element is shown; and a verdict, a probability score or the
    risk level appears on the page only if the model was loaded, the
    button was pressed and [make_prediction] returned a complete result. *)
Theorem main_renders_result_only_on_success (env : Env) (c : Cache)
        (Hc : reachable c) :
  (outcome (load_model env c) = Returned None ->
   outcome (main env c) = Stopped /\
   rendered (main env c) = rendered (load_model env c) /\
   quiet (main env c)) /\
  (forall m,
      outcome (load_model env c) = Returned (Some m) ->
      outcome (make_prediction (Some m) (features_of env) env
                 (cache_of (load_model env c)))
      = Returned (None, None) ->
      quiet (main env c)) /\
  (existsb is_result_element (rendered (main env c)) = true ->
   exists m prediction prediction_proba,
     outcome (load_model env c) = Returned (Some m) /\
     button (ui env) predict_button = true /\
     outcome (make_prediction (Some m) (features_of env) env
                (cache_of (load_model env c)))
     = Returned (Some prediction, Some prediction_proba)).
Proof.
  apply reachable_cache_inv in Hc.
  split; [|split].
  - intro Hload. rewrite (main_load_failed env c Hload). cbn [outcome rendered].
    repeat split. rewrite <- (main_load_failed env c Hload).
    apply main_quiet; [exact Hc|].
    intros m Hm. rewrite Hload in Hm. discriminate Hm.
  - intros m Hload Hfail. apply main_quiet; [exact Hc|].
    intros m' Hload' _. rewrite Hload in Hload'. injection Hload' as <-.
    rewrite <- Hfail. apply make_prediction_outcome.
  - intro Hshown.
    destruct (load_model_returns env c Hc) as (handle & Hload & _).
    assert (quiet (main env c) -> False) as Hloud
        by (unfold quiet; intro Hq; rewrite Hq in Hshown; discriminate Hshown).
    destruct handle as [m|].
    + destruct (button (ui env) predict_button) eqn:Hb.
      * destruct (make_prediction_outcome_cases (Some m) (features_of env) env
                    (cache_of (load_model env c)))
          as [(prediction & prediction_proba & E) | E].
        -- exists m, prediction, prediction_proba. auto.
        -- exfalso. apply Hloud, main_quiet; [exact Hc|].
           intros m' Hload' _. rewrite Hload in Hload'. injection Hload' as <-.
           rewrite <- E. apply make_prediction_outcome.
      * exfalso. apply Hloud, main_quiet; [exact Hc|].
        intros m' _ Hb'. rewrite Hb in Hb'. discriminate Hb'.
    + exfalso. apply Hloud, main_quiet; [exact Hc|].
      intros m' Hload'. rewrite Hload in Hload'. discriminate Hload'.
Qed.

Lemma main_renders_result_only_on_success_witness :
  outcome (main (env_with pressed_ui Absent) None) = Stopped /\
  exists m prediction prediction_proba,
    outcome (load_model
               (env_with pressed_ui
                  (Readable (Pickled (Some (constant_model 1 [0.18; 0.82]%Q))))) None)
    = Returned (Some m) /\
    button pressed_ui predict_button = true /\
    outcome (make_prediction (Some m)
               (features_of
                  (env_with pressed_ui
                     (Readable (Pickled (Some (constant_model 1 [0.18; 0.82]%Q))))))
               (env_with pressed_ui
                  (Readable (Pickled (Some (constant_model 1 [0.18; 0.82]%Q)))))
               (cache_of
                  (load_model
                     (env_with pressed_ui
                        (Readable (Pickled (Some (constant_model 1 [0.18; 0.82]%Q)))))
                     None)))
    = Returned (Some prediction, Some prediction_proba).
Proof.
  split.
  - destruct (main_renders_result_only_on_success
                (env_with pressed_ui Absent) None reachable_start) as (H & _).
    apply H. reflexivity.
  - destruct (main_renders_result_only_on_success
                (env_with pressed_ui
                   (Readable (Pickled (Some (constant_model 1 [0.18; 0.82]%Q)))))
                None reachable_start) as (_ & _ & H).
    apply H. vm_compute. reflexivity.
Defined.

(** * Further properties of the script *)

(** ** Stepping through a script *)

Lemma bind_returned {A B : Type} (m : App A) (k : A -> App B) (env : Env)
      (c c' : Cache) (a : A) (elements : list Element) :
  m env c = mkRun (Returned a) c' elements ->
  bind m k env c = prepend elements (k a env c').
Proof. intro E. unfold bind. rewrite E. reflexivity. Qed.

Lemma bind_raised {A B : Type} (m : App A) (k : A -> App B) (env : Env)
      (c c' : Cache) (e : exn) (elements : list Element) :
  m env c = mkRun (Raised e) c' elements ->
  bind m k env c = mkRun (Raised e) c' elements.
Proof. intro E. unfold bind. rewrite E. reflexivity. Qed.

Lemma bind_emit {B : Type} (e : Element) (k : unit -> App B) (env : Env) (c : Cache) :
  bind (emit e) k env c = prepend [e] (k tt env c).
Proof. reflexivity. Qed.

Lemma prepend_prepend {A : Type} (l1 l2 : list Element) (r : Run A) :
  prepend l1 (prepend l2 r) = prepend (l1 ++ l2) r.
Proof. unfold prepend. cbn. rewrite app_assoc. reflexivity. Qed.

Lemma run_eta {A : Type} (r : Run A) :
  r = mkRun (outcome r) (cache_of r) (rendered r).
Proof. destruct r; reflexivity. Qed.

Lemma create_input_features_run (env : Env) (c : Cache) :
  create_input_features env c = mkRun (Returned (features_of env)) c form_elements.
Proof. reflexivity. Qed.

(** [main] after a load that returned an object: the sidebar, the form and
    the button, then the prediction block and the footer. *)
Lemma main_loaded (env : Env) (c : Cache) (m : Model) :
  outcome (load_model env c) = Returned (Some m) ->
  main env c =
  prepend (rendered (load_model env c) ++ page_head)
    ((prediction_section (Some m) (features_of env) (button (ui env) predict_button) ;;
      st_markdown HorizontalRule ;;
      st_markdown AboutThisModel) env (cache_of (load_model env c))).
Proof.
  intro Hload. unfold main.
  rewrite (bind_returned _ _ env c (cache_of (load_model env c)) (Some m)
             (rendered (load_model env c)))
    by (rewrite <- Hload; apply run_eta).
  rewrite (bind_returned _ _ env _ _ tt [] eq_refl).
  unfold st_markdown at 1 2 3 4 5.
  rewrite !bind_emit.
  rewrite (bind_returned _ _ env _ _ _ _ (create_input_features_run env _)).
  rewrite bind_emit.
  rewrite (bind_returned _ _ env _ _ (button (ui env) predict_button)
             [Widget predict_button] eq_refl).
  rewrite !prepend_prepend. f_equal.
  rewrite app_nil_r, <- !app_assoc. reflexivity.
Qed.

Lemma make_prediction_success_run (handle : option Model) (record : Features)
      (env1 : Env) (c1 : Cache) (prediction : Z) (prediction_proba : list Q) :
  outcome (make_prediction handle record env1 c1)
  = Returned (Some prediction, Some prediction_proba) ->
  forall env c,
    make_prediction handle record env c =
    mkRun (Returned (Some prediction, Some prediction_proba)) c [].
Proof.
  intros H env c. rewrite make_prediction_cases in *.
  destruct (call_predict handle [record]) as [[|l labels]|e]; try discriminate H.
  destruct (call_predict_proba handle [record]) as [[|row rows]|e];
    try discriminate H.
  cbn in H. injection H as <- <-. reflexivity.
Qed.

Lemma make_prediction_failure_run (handle : option Model) (record : Features)
      (env1 : Env) (c1 : Cache) :
  outcome (make_prediction handle record env1 c1) = Returned (None, None) ->
  exists e, forall env c, make_prediction handle record env c = prediction_failed c e.
Proof.
  intro H. rewrite make_prediction_cases in H.
  destruct (call_predict handle [record]) as [[|l labels]|e] eqn:E1.
  - exists index_error. intros env c. rewrite make_prediction_cases, E1. reflexivity.
  - destruct (call_predict_proba handle [record]) as [[|row rows]|e] eqn:E2.
    + exists index_error. intros env c.
      rewrite make_prediction_cases, E1, E2. reflexivity.
    + discriminate H.
    + exists e. intros env c. rewrite make_prediction_cases, E1, E2. reflexivity.
  - exists e. intros env c. rewrite make_prediction_cases, E1. reflexivity.
Qed.

Lemma footer_run (env : Env) (c : Cache) :
  (st_markdown HorizontalRule ;; st_markdown AboutThisModel) env c =
  mkRun (Returned tt) c footer_elements.
Proof. reflexivity. Qed.

(** The block under [if prediction is not None:], by the length of the
    probability row. *)
Lemma render_result_short_row (prediction : Z) (row : list Q) (env : Env) (c : Cache) :
  (List.length row < 2)%nat ->
  render_result prediction (Some row) env c =
  mkRun (Raised index_error) c
    ([ Markdown (if prediction =? 1 then FraudDetectedBox else LowFraudRiskBox);
       Markdown ConfidenceScoresHeading ] ++
     match row with
     | [p0] => [Metric "No Fraud Probability" p0]
     | _ => []
     end).
Proof.
  intro Hlen. unfold render_result.
  destruct row as [|p0 [|p1 row]]; [| |cbn in Hlen; lia];
    unfold bind at 1; destruct (prediction =? 1); cbn; unfold bind; cbn; reflexivity.
Qed.

Lemma section_not_clicked (model : option Model) (features : Features)
      (env : Env) (c : Cache) :
  prediction_section model features false env c = mkRun (Returned tt) c [].
Proof. reflexivity. Qed.

Lemma section_failed (model : option Model) (features : Features) (e : exn)
      (env : Env) (c : Cache) :
  make_prediction model features env c = prediction_failed c e ->
  prediction_section model features true env c =
  mkRun (Returned tt) c [ErrorBox (prediction_error_message e)].
Proof.
  intro H. unfold prediction_section.
  rewrite (bind_returned _ _ env c c _ _ H). reflexivity.
Qed.

Lemma section_succeeded (model : option Model) (features : Features)
      (prediction : Z) (row : list Q) (env : Env) (c : Cache) :
  make_prediction model features env c =
  mkRun (Returned (Some prediction, Some row)) c [] ->
  prediction_section model features true env c =
  render_result prediction (Some row) env c.
Proof.
  intro H. unfold prediction_section.
  rewrite (bind_returned _ _ env c c _ _ H).
  unfold prepend. cbn [app]. symmetry. apply run_eta.
Qed.

(** The page of a run whose prediction block returned. *)
Lemma main_section_returned (env : Env) (c : Cache) (m : Model)
      (elements : list Element) :
  outcome (load_model env c) = Returned (Some m) ->
  prediction_section (Some m) (features_of env) (button (ui env) predict_button)
                     env (cache_of (load_model env c))
  = mkRun (Returned tt) (cache_of (load_model env c)) elements ->
  main env c =
  mkRun (Returned tt) (cache_of (load_model env c))
        (rendered (load_model env c) ++ page_head ++ elements ++ footer_elements).
Proof.
  intros Hload Hblock. rewrite (main_loaded env c m Hload).
  rewrite (bind_returned _ _ env _ _ tt _ Hblock), footer_run.
  unfold prepend. cbn [outcome cache_of rendered].
  rewrite <- !app_assoc. reflexivity.
Qed.

(** The page of a run whose prediction block raised. *)
Lemma main_section_raised (env : Env) (c : Cache) (m : Model) (e : exn)
      (elements : list Element) :
  outcome (load_model env c) = Returned (Some m) ->
  prediction_section (Some m) (features_of env) (button (ui env) predict_button)
                     env (cache_of (load_model env c))
  = mkRun (Raised e) (cache_of (load_model env c)) elements ->
  main env c =
  mkRun (Raised e) (cache_of (load_model env c))
        (rendered (load_model env c) ++ page_head ++ elements).
Proof.
  intros Hload Hblock. rewrite (main_loaded env c m Hload).
  rewrite (bind_raised _ _ env _ _ _ _ Hblock).
  unfold prepend. cbn [outcome cache_of rendered].
  rewrite <- !app_assoc. reflexivity.
Qed.

(** X1.  When the model is loaded, the button is pressed and
    [make_prediction] returns a label with a probability pair whose fraud
    probability lies between 0 and 1, the run returns normally and the page
    is, in order: what the loader rendered, the sidebar, the form, the
    rule and the button, then the verdict for the label, both scores, the
    progress bar and the risk level of the fraud probability, then the
    footer. *)
Theorem main_success_page (env : Env) (c : Cache) (m : Model)
        (prediction : Z) (p0 p1 : Q)
        (Hload : outcome (load_model env c) = Returned (Some m))
        (Hclick : button (ui env) predict_button = true)
        (Hresult : outcome (make_prediction (Some m) (features_of env) env c)
                   = Returned (Some prediction, Some [p0; p1]))
        (Hrange : (0 <= p1 /\ p1 <= 1)%Q) :
  main env c =
  mkRun (Returned tt) (cache_of (load_model env c))
        (rendered (load_model env c) ++ page_head ++
         result_elements prediction p0 p1 ++ footer_elements).
Proof.
  apply (main_section_returned env c m _ Hload). rewrite Hclick.
  rewrite (section_succeeded _ _ prediction [p0; p1])
    by apply (make_prediction_success_run _ _ _ _ _ _ Hresult).
  apply render_result_complete; apply Hrange.
Qed.

Lemma main_success_page_witness :
  main (loaded_env pressed_ui (constant_model 1 [0.18; 0.82]%Q)) None =
  mkRun (Returned tt)
        (Some (Some (constant_model 1 [0.18; 0.82]%Q), []))
        (page_head ++ result_elements 1 0.18 0.82 ++ footer_elements).
Proof.
  apply (main_success_page
           (loaded_env pressed_ui (constant_model 1 [0.18; 0.82]%Q)) None
           (constant_model 1 [0.18; 0.82]%Q) 1 0.18%Q 0.82%Q).
  - reflexivity.
  - reflexivity.
  - reflexivity.
  - split; discriminate.
Defined.

(** X2.  When the model is loaded, the button is pressed and
    [make_prediction] returns the error outcome, the run still returns
    normally: the page shows the one prediction error under the button and
    is completed with the footer. *)
Theorem main_prediction_failed_page (env : Env) (c : Cache) (m : Model)
        (Hload : outcome (load_model env c) = Returned (Some m))
        (Hclick : button (ui env) predict_button = true)
        (Hresult : outcome (make_prediction (Some m) (features_of env) env c)
                   = Returned (None, None)) :
  exists e,
    main env c =
    mkRun (Returned tt) (cache_of (load_model env c))
          (rendered (load_model env c) ++ page_head ++
           [ErrorBox (prediction_error_message e)] ++ footer_elements).
Proof.
  destruct (make_prediction_failure_run _ _ _ _ Hresult) as (e & He).
  exists e. apply (main_section_returned env c m _ Hload). rewrite Hclick.
  apply section_failed, He.
Qed.

Lemma main_prediction_failed_page_witness :
  exists e,
    main (loaded_env pressed_ui (failing_model (mkExn "ValueError" "feature mismatch")))
         None =
    mkRun (Returned tt)
          (Some (Some (failing_model (mkExn "ValueError" "feature mismatch")), []))
          (page_head ++ [ErrorBox (prediction_error_message e)] ++ footer_elements).
Proof.
  apply (main_prediction_failed_page
           (loaded_env pressed_ui (failing_model (mkExn "ValueError" "feature mismatch")))
           None (failing_model (mkExn "ValueError" "feature mismatch"))).
  - reflexivity.
  - reflexivity.
  - reflexivity.
Defined.

(** X3.  While the button is not pressed the run returns normally and the
    page consists of what the loader rendered, the sidebar, the form, the
    button and the footer: it is the same for every loaded model and every
    answer of the form widgets. *)
Theorem main_without_click (env : Env) (c : Cache) (m : Model)
        (Hload : outcome (load_model env c) = Returned (Some m))
        (Hclick : button (ui env) predict_button = false) :
  main env c =
  mkRun (Returned tt) (cache_of (load_model env c))
        (rendered (load_model env c) ++ page_head ++ footer_elements).
Proof.
  apply (main_section_returned env c m [] Hload). rewrite Hclick.
  apply section_not_clicked.
Qed.

Lemma main_without_click_witness :
  main (loaded_env default_ui (constant_model 1 [0.18; 0.82]%Q)) None =
  mkRun (Returned tt)
        (Some (Some (constant_model 1 [0.18; 0.82]%Q), []))
        (page_head ++ footer_elements).
Proof.
  apply (main_without_click
           (loaded_env default_ui (constant_model 1 [0.18; 0.82]%Q)) None
           (constant_model 1 [0.18; 0.82]%Q)).
  - reflexivity.
  - reflexivity.
Defined.

(** X4.  The subscripts [prediction_proba[0]] and [prediction_proba[1]] of
    [main] are outside the [try] of [make_prediction]: when the model's
    probability row has fewer than two entries the run ends with an
    uncaught IndexError after the verdict (and the first score, if there
    is one) was shown, without risk level and without footer. *)
Theorem main_short_row_raises (env : Env) (c : Cache) (m : Model)
        (prediction : Z) (row : list Q)
        (Hload : outcome (load_model env c) = Returned (Some m))
        (Hclick : button (ui env) predict_button = true)
        (Hresult : outcome (make_prediction (Some m) (features_of env) env c)
                   = Returned (Some prediction, Some row))
        (Hshort : (List.length row < 2)%nat) :
  main env c =
  mkRun (Raised index_error) (cache_of (load_model env c))
        (rendered (load_model env c) ++ page_head ++
         [ Markdown (if prediction =? 1 then FraudDetectedBox else LowFraudRiskBox);
           Markdown ConfidenceScoresHeading ] ++
         match row with
         | [p0] => [Metric "No Fraud Probability" p0]
         | _ => []
         end).
Proof.
  apply (main_section_raised env c m _ _ Hload). rewrite Hclick.
  rewrite (section_succeeded _ _ prediction row)
    by apply (make_prediction_success_run _ _ _ _ _ _ Hresult).
  apply render_result_short_row, Hshort.
Qed.

Lemma main_short_row_raises_witness :
  main (loaded_env pressed_ui (constant_model 0 [1]%Q)) None =
  mkRun (Raised index_error)
        (Some (Some (constant_model 0 [1]%Q), []))
        (page_head ++
         [ Markdown LowFraudRiskBox; Markdown ConfidenceScoresHeading;
           Metric "No Fraud Probability" 1 ]).
Proof.
  apply (main_short_row_raises
           (loaded_env pressed_ui (constant_model 0 [1]%Q)) None
           (constant_model 0 [1]%Q) 0 [1]%Q).
  - reflexivity.
  - reflexivity.
  - reflexivity.
  - cbn. lia.
Defined.

(** ** The resource cache across runs *)

(** The first call of [load_model] in a process stores what it returns. *)
Lemma load_model_first (env : Env) :
  exists value elements,
    load_model env None = mkRun (Returned value) (Some (value, elements)) elements /\
    (value <> None -> elements = []) /\
    (elements = [] \/ exists message, elements = [ErrorBox message]).
Proof.
  unfold load_model, cache_resource. rewrite load_model_body_cases.
  destruct (fs env model_path) as [|e|[e|object]];
    try destruct (isinstance e FileNotFoundError);
    cbn; do 2 eexists; (split; [reflexivity|]); split; eauto;
    intro H; exfalso; apply H; reflexivity.
Qed.

Lemma main_cache_filled (env : Env) (entry : option Model * list Element) :
  cache_of (main env (Some entry)) = Some entry.
Proof. rewrite main_cache. destruct entry. reflexivity. Qed.

Lemma cache_after_filled (runs : list Env) (entry : option Model * list Element) :
  cache_after runs (Some entry) = Some entry.
Proof.
  induction runs as [|env runs IH]; [reflexivity|].
  cbn [cache_after fold_left]. rewrite main_cache_filled. exact IH.
Qed.

(** X5.  The artifact is read once per process: the first run fills the
    cache, no later run changes it, and every later call of [load_model]
    returns what the first one returned and shows what the first one
    showed, whatever is on disk by then. *)
Theorem load_model_once (first : Env) (runs : list Env) (later : Env) :
  cache_after runs (cache_of (main first None)) = cache_of (main first None) /\
  cache_of (main first None) <> None /\
  load_model later (cache_after runs (cache_of (main first None))) =
  mkRun (outcome (load_model first None)) (cache_of (main first None))
        (rendered (load_model first None)).
Proof.
  rewrite main_cache.
  destruct (load_model_first first) as (value & elements & E & _).
  rewrite E. cbn [outcome cache_of rendered].
  rewrite cache_after_filled. repeat split. discriminate.
Qed.

(** X6.  A failed load sticks: when the artifact was missing at the first
    run, every later run of the process stops with the same not-found
    error, also when the file exists by then. *)
Theorem load_failure_is_cached (first : Env) (runs : list Env) (later : Env)
        (Hmissing : fs first model_path = Absent) :
  main later (cache_after runs (cache_of (main first None))) =
  mkRun Stopped (Some (None, [ErrorBox not_found_message]))
        [ErrorBox not_found_message].
Proof.
  rewrite main_cache.
  assert (load_model first None =
          mkRun (Returned None) (Some (None, [ErrorBox not_found_message]))
                [ErrorBox not_found_message]) as E.
  { unfold load_model, cache_resource.
    rewrite load_model_body_cases, Hmissing. reflexivity. }
  rewrite E. cbn [cache_of]. rewrite cache_after_filled.
  rewrite main_load_failed by reflexivity. reflexivity.
Qed.

Lemma load_failure_is_cached_witness :
  main (loaded_env pressed_ui (constant_model 1 [0.18; 0.82]%Q))
       (cache_after [env_with pressed_ui Absent]
                    (cache_of (main (env_with default_ui Absent) None))) =
  mkRun Stopped (Some (None, [ErrorBox not_found_message]))
        [ErrorBox not_found_message].
Proof.
  apply (load_failure_is_cached
           (env_with default_ui Absent) [env_with pressed_ui Absent]
           (loaded_env pressed_ui (constant_model 1 [0.18; 0.82]%Q))).
  reflexivity.
Defined.

(** X7.  An artifact that unpickles to [None] raises nothing in
    [load_model], so no error is shown: the first run stops with an empty
    page. *)
Theorem main_none_artifact (env : Env)
        (Hnone : fs env model_path = Readable (Pickled None)) :
  main env None = mkRun Stopped (Some (None, [])) [].
Proof.
  assert (load_model env None = mkRun (Returned None) (Some (None, [])) []) as E.
  { unfold load_model, cache_resource.
    rewrite load_model_body_cases, Hnone. reflexivity. }
  rewrite main_load_failed by (rewrite E; reflexivity).
  rewrite E. reflexivity.
Qed.

Lemma main_none_artifact_witness :
  main (env_with pressed_ui (Readable (Pickled None))) None =
  mkRun Stopped (Some (None, [])) [].
Proof.
  apply (main_none_artifact (env_with pressed_ui (Readable (Pickled None)))).
  reflexivity.
Defined.

(** X8.  Once a model was loaded by the first run, every later call of
    [load_model] returns that model and renders nothing, also when the
    file has been removed or replaced. *)
Theorem loaded_model_survives_disk (first : Env) (runs : list Env) (later : Env)
        (m : Model)
        (Hfile : fs first model_path = Readable (Pickled (Some m))) :
  load_model later (cache_after runs (cache_of (main first None))) =
  mkRun (Returned (Some m)) (Some (Some m, [])) [].
Proof.
  rewrite main_cache.
  assert (load_model first None = mkRun (Returned (Some m)) (Some (Some m, [])) [])
    as E.
  { unfold load_model, cache_resource.
    rewrite load_model_body_cases, Hfile. reflexivity. }
  rewrite E. cbn [cache_of]. rewrite cache_after_filled. reflexivity.
Qed.

Lemma loaded_model_survives_disk_witness :
  load_model (env_with pressed_ui Absent)
             (cache_after [env_with default_ui Absent]
                (cache_of (main (loaded_env default_ui (constant_model 0 [1; 0]%Q))
                                None))) =
  mkRun (Returned (Some (constant_model 0 [1; 0]%Q)))
        (Some (Some (constant_model 0 [1; 0]%Q), [])) [].
Proof.
  apply (loaded_model_survives_disk
           (loaded_env default_ui (constant_model 0 [1; 0]%Q))
           [env_with default_ui Absent] (env_with pressed_ui Absent)
           (constant_model 0 [1; 0]%Q)).
  reflexivity.
Defined.

(** ** Error boxes and early stops *)

Lemma errorless_bind {A B : Type} (m : App A) (k : A -> App B) (env : Env) (c : Cache) :
  errorless (m env c) ->
  (forall a, outcome (m env c) = Returned a -> errorless (k a env (cache_of (m env c)))) ->
  errorless (bind m k env c).
Proof.
  unfold errorless, bind. intros Hm Hk.
  destruct (outcome (m env c)) as [a| |]; cbn; try exact Hm.
  rewrite existsb_app, Hm. apply Hk. reflexivity.
Qed.

Lemma errorless_call {A : Type} (x : Except A) (env : Env) (c : Cache) :
  errorless (call x env c).
Proof. destruct x; reflexivity. Qed.

Ltac errorless_script :=
  repeat match goal with
         | |- errorless (bind _ _ _ _) => apply errorless_bind; [|intros ? _]
         | |- errorless (call _ _ _) => apply errorless_call
         | |- errorless ((if ?b then _ else _) _ _) => destruct b
         | |- errorless (st_progress _ _ _) => unfold st_progress
         | |- errorless ((let '(_, _) := ?x in _) _ _) => destruct x
         | |- errorless _ => reflexivity
         end.

Lemma render_result_errorless (prediction : Z) (prediction_proba : option (list Q))
      (env : Env) (c : Cache) :
  errorless (render_result prediction prediction_proba env c).
Proof. unfold render_result. errorless_script. Qed.

Lemma count_errors_app (l1 l2 : list Element) :
  count_errors (l1 ++ l2) = (count_errors l1 + count_errors l2)%nat.
Proof. unfold count_errors. rewrite filter_app. apply length_app. Qed.

Lemma errorless_count {A : Type} (r : Run A) :
  errorless r -> count_errors (rendered r) = 0%nat.
Proof.
  unfold errorless, count_errors. induction (rendered r) as [|e l IH]; [reflexivity|].
  cbn. destruct (is_error_box e); [discriminate|]. exact IH.
Qed.

Lemma count_errors_bind {A B : Type} (m : App A) (k : A -> App B) (env : Env)
      (c : Cache) (n : nat) :
  (forall a, outcome (m env c) = Returned a ->
             (count_errors (rendered (k a env (cache_of (m env c)))) <= n)%nat) ->
  (count_errors (rendered (bind m k env c))
   <= count_errors (rendered (m env c)) + n)%nat.
Proof.
  intro Hk. unfold bind.
  destruct (outcome (m env c)) as [a| |]; cbn [rendered]; try lia.
  rewrite count_errors_app. specialize (Hk a eq_refl). lia.
Qed.

(** A cache a process can hold is empty or the one its first load left. *)
Lemma reachable_first_load (c : Cache) :
  reachable c -> c = None \/ exists env, c = cache_of (load_model env None).
Proof.
  induction 1 as [|env c _ [-> | (first & ->)]].
  - left. reflexivity.
  - right. exists env. apply main_cache.
  - right. exists first.
    destruct (load_model_first first) as (value & elements & E & _).
    rewrite E. cbn [cache_of]. apply main_cache_filled.
Qed.

Lemma load_model_reachable (env : Env) (c : Cache) :
  reachable c ->
  exists value elements,
    outcome (load_model env c) = Returned value /\
    rendered (load_model env c) = elements /\
    (value <> None -> elements = []) /\
    (elements = [] \/ exists message, elements = [ErrorBox message]).
Proof.
  intro Hc. destruct (reachable_first_load c Hc) as [-> | (first & ->)].
  - destruct (load_model_first env) as (value & elements & E & H).
    exists value, elements. rewrite E. auto.
  - destruct (load_model_first first) as (value & elements & E & H).
    exists value, elements. rewrite E. cbn. auto.
Qed.

Lemma prediction_section_errors (model : option Model) (features : Features)
      (clicked : bool) (env : Env) (c : Cache) :
  (count_errors (rendered (prediction_section model features clicked env c)) <= 1)%nat.
Proof.
  unfold prediction_section. destruct clicked; [|cbn; lia].
  eapply Nat.le_trans.
  - apply (count_errors_bind _ _ env c 0). intros [[prediction|] proba] _.
    + rewrite errorless_count; [lia | apply render_result_errorless].
    + cbn. lia.
  - rewrite make_prediction_cases.
    destruct (call_predict model [features]) as [[|l labels]|e]; cbn; try lia.
    destruct (call_predict_proba model [features]) as [[|row rows]|e]; cbn; lia.
Qed.

(** X9.  A run shows at most one error box, from any cache a process can
    hold. *)
Theorem main_at_most_one_error (env : Env) (c : Cache) (Hc : reachable c) :
  (count_errors (rendered (main env c)) <= 1)%nat.
Proof.
  destruct (load_model_reachable env c Hc)
    as (value & elements & Hload & Hpage & Hsome & Hshape).
  destruct value as [m|].
  - rewrite (main_loaded env c m Hload), Hpage, (Hsome ltac:(discriminate)).
    cbn [prepend rendered]. rewrite !count_errors_app.
    change (count_errors []) with 0%nat.
    change (count_errors page_head) with 0%nat.
    match goal with
    | |- context [rendered (bind ?block ?k env ?c')] =>
        pose proof (count_errors_bind block k env c' 0) as Hbind;
        pose proof (prediction_section_errors (Some m) (features_of env)
                      (button (ui env) predict_button) env c') as Hblock
    end.
    assert (forall c' : Cache,
               count_errors
                 (rendered ((st_markdown HorizontalRule ;; st_markdown AboutThisModel)
                              env c')) = 0%nat) as Hfooter
        by (intros; rewrite footer_run; reflexivity).
    specialize (Hbind ltac:(intros a _; cbv beta; rewrite Hfooter; lia)).
    lia.
  - rewrite (main_load_failed env c Hload). cbn [rendered]. rewrite Hpage.
    destruct Hshape as [-> | (message & ->)]; cbn; lia.
Qed.

Lemma main_at_most_one_error_witness :
  (count_errors
     (rendered
        (main (loaded_env pressed_ui (failing_model (mkExn "ValueError" "feature mismatch")))
              (cache_of (main (env_with default_ui Absent) None))))
   <= 1)%nat.
Proof.
  apply (main_at_most_one_error
           (loaded_env pressed_ui (failing_model (mkExn "ValueError" "feature mismatch")))
           (cache_of (main (env_with default_ui Absent) None))).
  apply reachable_run, reachable_start.
Defined.

Lemma load_model_total (env : Env) (c : Cache) :
  exists handle, outcome (load_model env c) = Returned handle.
Proof.
  unfold load_model, cache_resource.
  destruct c as [[value elements]|].
  - exists value. reflexivity.
  - rewrite load_model_body_cases.
    destruct (fs env model_path) as [|e|[e|m]];
      try destruct (isinstance e FileNotFoundError);
      cbn; eexists; reflexivity.
Qed.

Lemma going_bind {A B : Type} (m : App A) (k : A -> App B) (env : Env) (c : Cache) :
  outcome (m env c) <> Stopped ->
  (forall a, outcome (m env c) = Returned a ->
             outcome (k a env (cache_of (m env c))) <> Stopped) ->
  outcome (bind m k env c) <> Stopped.
Proof.
  unfold bind. intros Hm Hk.
  destruct (outcome (m env c)) as [a| |]; cbn; try discriminate.
  - apply Hk. reflexivity.
  - exfalso. apply Hm. reflexivity.
Qed.

Lemma going_call {A : Type} (x : Except A) (env : Env) (c : Cache) :
  outcome (call x env c) <> Stopped.
Proof. destruct x; discriminate. Qed.

Ltac going_script :=
  repeat match goal with
         | |- outcome (bind _ _ _ _) <> Stopped => apply going_bind; [|intros ? _]
         | |- outcome (call _ _ _) <> Stopped => apply going_call
         | |- outcome ((if ?b then _ else _) _ _) <> Stopped => destruct b
         | |- outcome (st_progress _ _ _) <> Stopped => unfold st_progress
         | |- outcome ((let '(_, _) := ?x in _) _ _) <> Stopped => destruct x
         | |- outcome _ <> Stopped => discriminate
         end.

Lemma render_result_going (prediction : Z) (prediction_proba : option (list Q))
      (env : Env) (c : Cache) :
  outcome (render_result prediction prediction_proba env c) <> Stopped.
Proof. unfold render_result. going_script. Qed.

(** How the prediction block ends, by what [make_prediction] returned. *)
Lemma prediction_section_cases (model : option Model) (features : Features)
      (clicked : bool) (env : Env) (c : Cache) :
  (exists elements,
      prediction_section model features clicked env c =
      mkRun (Returned tt) c elements) \/
  (clicked = true /\
   exists prediction row,
     outcome (make_prediction model features env c)
     = Returned (Some prediction, Some row) /\
     prediction_section model features clicked env c =
     render_result prediction (Some row) env c).
Proof.
  destruct clicked.
  - destruct (make_prediction_outcome_cases model features env c)
      as [(prediction & row & E) | E].
    + right. split; [reflexivity|]. exists prediction, row. split; [exact E|].
      apply section_succeeded, (make_prediction_success_run _ _ _ _ _ _ E).
    + left. destruct (make_prediction_failure_run _ _ _ _ E) as (e & He).
      eexists. apply section_failed, He.
  - left. eexists. apply section_not_clicked.
Qed.

(** X10.  A run is cut short by [st.stop()] exactly when [load_model]
    returned [None]. *)
Theorem main_stops_iff_no_handle (env : Env) (c : Cache) :
  outcome (main env c) = Stopped <-> outcome (load_model env c) = Returned None.
Proof.
  split.
  - intro Hstop. destruct (load_model_total env c) as ([m|] & Hload); [|exact Hload].
    exfalso. rewrite (main_loaded env c m Hload) in Hstop. cbn [prepend outcome] in Hstop.
    revert Hstop. apply going_bind.
    + destruct (prediction_section_cases (Some m) (features_of env)
                  (button (ui env) predict_button) env (cache_of (load_model env c)))
        as [(elements & ->) | (_ & prediction & row & _ & ->)].
      * discriminate.
      * apply render_result_going.
    + intros _ _. rewrite footer_run. discriminate.
  - intro Hload. rewrite (main_load_failed env c Hload). reflexivity.
Qed.

(** X11.  An exception leaves a run only from the block that renders a
    complete result: the model was loaded, the button pressed,
    [make_prediction] returned a label with a row, and rendering them
    raised. *)
Theorem main_raises_only_while_rendering (env : Env) (c : Cache) (e : exn)
        (Hraised : outcome (main env c) = Raised e) :
  exists m prediction row,
    outcome (load_model env c) = Returned (Some m) /\
    button (ui env) predict_button = true /\
    outcome (make_prediction (Some m) (features_of env) env c)
    = Returned (Some prediction, Some row) /\
    outcome (render_result prediction (Some row) env (cache_of (load_model env c)))
    = Raised e.
Proof.
  destruct (load_model_total env c) as ([m|] & Hload).
  - destruct (prediction_section_cases (Some m) (features_of env)
                (button (ui env) predict_button) env (cache_of (load_model env c)))
      as [(elements & Hblock) | (Hclick & prediction & row & Hresult & Hblock)].
    + rewrite (main_section_returned env c m elements Hload Hblock) in Hraised.
      discriminate Hraised.
    + exists m, prediction, row. repeat split; try assumption.
      * rewrite <- Hresult. apply make_prediction_outcome.
      * rewrite (main_loaded env c m Hload) in Hraised.
        cbn [prepend outcome] in Hraised. rewrite bind_run, Hblock in Hraised.
        destruct (outcome (render_result prediction (Some row) env
                             (cache_of (load_model env c)))) as [[]|e'|];
          cbn [outcome] in Hraised.
        -- rewrite footer_run in Hraised. discriminate Hraised.
        -- exact Hraised.
        -- discriminate Hraised.
  - rewrite (main_load_failed env c Hload) in Hraised. discriminate Hraised.
Qed.

Lemma main_raises_only_while_rendering_witness :
  exists m prediction row,
    outcome (load_model (loaded_env pressed_ui (constant_model 0 [1]%Q)) None)
    = Returned (Some m) /\
    button pressed_ui predict_button = true /\
    outcome (make_prediction (Some m)
               (features_of (loaded_env pressed_ui (constant_model 0 [1]%Q)))
               (loaded_env pressed_ui (constant_model 0 [1]%Q)) None)
    = Returned (Some prediction, Some row) /\
    outcome (render_result prediction (Some row)
               (loaded_env pressed_ui (constant_model 0 [1]%Q))
               (cache_of (load_model (loaded_env pressed_ui (constant_model 0 [1]%Q))
                                     None)))
    = Raised index_error.
Proof.
  apply (main_raises_only_while_rendering
           (loaded_env pressed_ui (constant_model 0 [1]%Q)) None index_error).
  reflexivity.
Defined.

(** ** Risk levels are ordered *)

(** X12.  A higher fraud probability never gets a lower risk level (LOW
    below MEDIUM below HIGH), for any two values, also outside the unit
    interval. *)
Theorem risk_level_monotone (p q : Q) (Hle : (p <= q)%Q) :
  (risk_rank (risk_level p) <= risk_rank (risk_level q))%nat.
Proof.
  unfold risk_level.
  destruct (risk_interpretation_cases p) as [(P & ->) | [(P1 & P2 & ->) | (P & ->)]];
    destruct (risk_interpretation_cases q) as [(R & ->) | [(R1 & R2 & ->) | (R & ->)]];
    cbn; try lia; exfalso; lra.
Qed.

Lemma risk_level_monotone_witness :
  (risk_rank (risk_level 0.3) <= risk_rank (risk_level 0.8))%nat.
Proof.
  apply (risk_level_monotone 0.3 0.8). discriminate.
Defined.

(** ** The page of the form *)

(** X13.  The form renders the same elements whatever the browser answers:
    the header, four subheaders and 32 widgets whose labels are pairwise
    different and different from the label of the predict button. *)
Theorem form_page_fixed (env : Env) (c : Cache) :
  rendered (create_input_features env c) = form_elements /\
  NoDup (widget_labels (rendered (create_input_features env c))) /\
  List.length (widget_labels (rendered (create_input_features env c))) = 32%nat /\
  ~ In predict_button (widget_labels (rendered (create_input_features env c))).
Proof.
  rewrite create_input_features_run. cbn [rendered].
  split; [reflexivity | split; [|split; [reflexivity|]]].
  - apply distinct_NoDup. reflexivity.
  - intro H. apply mem_In in H. discriminate H.
Qed.
